(** * OCP_Install: cluster teardown, retry wrapper and client cache

    A shallow embedding of three source files of the installer:

    - [pkg/destroy/ovirt/destroyer.go]            (module [Ovirt])
    - [vendor/.../alicloud/service_alicloud_sgw.go] (module [Sgw])
    - [pkg/asset/installconfig/alibabacloud/metadata.go] (module [Alibaba])

    Every function that talks to the outside world is embedded in a
    _history monad_: a computation reads the events that happened so far
    and returns its result together with the events it emits.  The
    external collaborators (the oVirt engine, the Alibaba endpoint) are
    arbitrary functions of the history, so a statement quantified over
    them covers every outcome of every individual call. *)

From Stdlib Require Import String List ZArith Lia Bool Arith Permutation.
From Stdlib Require Import DecimalString.
From stdpp Require Import gmap strings.
Import ListNotations.
Local Open Scope string_scope.
Local Open Scope list_scope.

(** ** The history monad *)

Module Hist.
Section WithEvent.
Context {Event : Type}.

(** [M A]: given the past events, a result and the newly emitted events. *)
Definition M (A : Type) : Type := list Event -> A * list Event.

Definition ret {A} (a : A) : M A := fun _ => (a, []).

Definition bind {A B} (m : M A) (f : A -> M B) : M B :=
  fun h =>
    let (a, e1) := m h in
    let (b, e2) := f a (h ++ e1) in
    (b, e1 ++ e2).

(** One observable action whose answer is decided by the environment. *)
Definition emit {A} (e : Event) (answer : list Event -> A) : M A :=
  fun h => (answer h, [e]).

(** [for _, x := range xs { body x }] for a body that never returns. *)
Fixpoint forEach {A} (xs : list A) (body : A -> M unit) : M unit :=
  match xs with
  | [] => ret tt
  | x :: xs' => bind (body x) (fun _ => forEach xs' body)
  end.

(** [for _, x := range xs { body x }] where [body] may leave the loop
    early with a value ([Some r] is a [return r] in the loop body). *)
Fixpoint forRange {A R} (xs : list A) (body : A -> M (option R))
  : M (option R) :=
  match xs with
  | [] => ret None
  | x :: xs' =>
      bind (body x) (fun r =>
        match r with
        | Some v => ret (Some v)
        | None => forRange xs' body
        end)
  end.
End WithEvent.
Arguments M : clear implicits.
End Hist.

Declare Scope hist_scope.
Delimit Scope hist_scope with hist.
Notation "x <- m ;; k" := (Hist.bind m (fun x => k))
  (at level 100, m at next level, k at level 200, right associativity)
  : hist_scope.
Notation "m ;; k" := (Hist.bind m (fun _ => k))
  (at level 100, k at level 200, right associativity) : hist_scope.

(** Decimal rendering of [%d]. *)
Definition itoa (z : Z) : string := NilZero.string_of_int (Z.to_int z).

(** ** pkg/destroy/ovirt/destroyer.go *)

Module Ovirt.

(** Modelled from the spec: the error values of the external API.  The
    source only tests errors against [nil] and prints them; the spec says
    every call "may fail with a distinguishable not found condition". *)
Inductive error : Type :=
| NotFoundError (msg : string)
| ApiError (msg : string)
| errorString (msg : string).   (* what fmt.Errorf builds *)

(** [err.Error()] *)
Definition Error (e : error) : string :=
  match e with
  | NotFoundError m | ApiError m | errorString m => m
  end.

Inductive result (A : Type) : Type :=
| Ok (a : A)
| Err (e : error).
Arguments Ok {A} a.
Arguments Err {A} e.

(** Handles returned by the engine; [MustId]/[MustName] read the fields. *)
Record Vm := { vm_MustId : string; vm_MustName : string }.
Record Tag := { tag_MustId : string; tag_MustName : string }.
Record Template := { tmp_MustId : string; tmp_MustName : string }.
Record AffinityGroup := { ag_MustId : string; ag_MustName : string }.

Inductive VmStatus := VMSTATUS_DOWN | VMSTATUS_UP.

(** types.ClusterMetadata, restricted to the fields the destroyer reads. *)
Record OvirtMetadata := { ClusterID : string; RemoveTemplate : bool }.
Record ClusterMetadata := { InfraID : string; Ovirt : OvirtMetadata }.
Inductive ClusterQuota : Type := .

(** Calls on the connection, in the order they occur in the file. *)
Inductive Request : Type :=
| NewConnection
| Close
| VmsSearch (term : string)
| TagsList
| TagRemove (id : string)
| VmStop (id : string)
| WaitForVM (id : string) (target : VmStatus) (timeout : Z)
| VmRemove (id : string)
| TemplatesSearch (term : string)
| TemplateRemove (id : string)
| AffinityGroupsList (cID : string)
| AffinityGroupRemove (cID id : string).

Inductive Level := Debug | Info | Warn | Error_.

Inductive Event : Type :=
| Call (r : Request)
| Log (lvl : Level) (msg : string).

Definition History := list Event.

(** The engine: what each call answers, given everything that happened
    before it.  [schedule] is the order in which the runtime lets the
    goroutines of one fan-out take their steps. *)
Record Engine := {
  onNewConnection : History -> option error;
  onVmsSearch : History -> string -> result (list Vm);
  onTagsList : History -> result (option (list Tag));
  onTagRemove : History -> string -> option error;
  onVmStop : History -> string -> option error;
  onWaitForVM : History -> string -> VmStatus -> Z -> option error;
  onVmRemove : History -> string -> option error;
  onTemplatesSearch : History -> string -> result (option (list Template));
  onTemplateRemove : History -> string -> option error;
  onAffinityGroupsList : History -> string -> result (list AffinityGroup);
  onAffinityGroupRemove : History -> string -> string -> option error;
  schedule : History -> list nat
}.

Abbreviation M := (Hist.M Event).

Definition logf (lvl : Level) (msg : string) : M unit :=
  Hist.emit (Log lvl msg) (fun _ => tt).

Definition Minute : Z := 60 * 1000000000.

Section Destroyer.
Variable eng : Engine.
Variable Metadata : ClusterMetadata.

Local Open Scope hist_scope.

Definition stopVM (vm : Vm) : M unit :=
  err <- Hist.emit (Call (VmStop (vm_MustId vm)))
           (fun h => onVmStop eng h (vm_MustId vm)) ;;
  match err with
  | None => logf Info ("Stopping VM " ++ vm_MustName vm)
  | Some e =>
      logf Error_ ("Failed to stop VM " ++ vm_MustName vm ++ ": " ++ Error e)
  end ;;
  let waitForDownDuration := (Minute * 10)%Z in
  err <- Hist.emit
           (Call (WaitForVM (vm_MustId vm) VMSTATUS_DOWN waitForDownDuration))
           (fun h => onWaitForVM eng h (vm_MustId vm) VMSTATUS_DOWN
                       waitForDownDuration) ;;
  match err with
  | None => logf Info ("VM " ++ vm_MustName vm ++ " powered off")
  | Some e =>
      logf Warn ("Waited " ++ itoa waitForDownDuration ++ " for VM "
                 ++ vm_MustName vm ++ " to power off: " ++ Error e)
  end.

Definition removeVM (vm : Vm) : M unit :=
  err <- Hist.emit (Call (VmRemove (vm_MustId vm)))
           (fun h => onVmRemove eng h (vm_MustId vm)) ;;
  match err with
  | None => logf Info ("Removing VM " ++ vm_MustName vm)
  | Some e =>
      logf Error_ ("Failed to remove VM " ++ vm_MustName vm ++ ": " ++ Error e)
  end.

(** *** The fan-out of [removeVMs]

    Each goroutine runs [stopVM] then [removeVM] then [wg.Done()].  Its
    observable actions are atomic, so the goroutine is cut at every
    action: a program counter says which action comes next and carries
    the [err] of the call just made. *)
Inductive Pc : Type :=
| PcStop
| PcStopLog (err : option error)
| PcWait
| PcWaitLog (err : option error)
| PcRemove
| PcRemoveLog (err : option error)
| PcDone.

Definition goStep (vm : Vm) (pc : Pc) : M Pc :=
  let waitForDownDuration := (Minute * 10)%Z in
  match pc with
  | PcStop =>
      err <- Hist.emit (Call (VmStop (vm_MustId vm)))
               (fun h => onVmStop eng h (vm_MustId vm)) ;;
      Hist.ret (PcStopLog err)
  | PcStopLog err =>
      match err with
      | None => logf Info ("Stopping VM " ++ vm_MustName vm)
      | Some e =>
          logf Error_
            ("Failed to stop VM " ++ vm_MustName vm ++ ": " ++ Error e)
      end ;;
      Hist.ret PcWait
  | PcWait =>
      err <- Hist.emit
               (Call (WaitForVM (vm_MustId vm) VMSTATUS_DOWN
                        waitForDownDuration))
               (fun h => onWaitForVM eng h (vm_MustId vm) VMSTATUS_DOWN
                           waitForDownDuration) ;;
      Hist.ret (PcWaitLog err)
  | PcWaitLog err =>
      match err with
      | None => logf Info ("VM " ++ vm_MustName vm ++ " powered off")
      | Some e =>
          logf Warn ("Waited " ++ itoa waitForDownDuration ++ " for VM "
                     ++ vm_MustName vm ++ " to power off: " ++ Error e)
      end ;;
      Hist.ret PcRemove
  | PcRemove =>
      err <- Hist.emit (Call (VmRemove (vm_MustId vm)))
               (fun h => onVmRemove eng h (vm_MustId vm)) ;;
      Hist.ret (PcRemoveLog err)
  | PcRemoveLog err =>
      match err with
      | None => logf Info ("Removing VM " ++ vm_MustName vm)
      | Some e =>
          logf Error_
            ("Failed to remove VM " ++ vm_MustName vm ++ ": " ++ Error e)
      end ;;
      Hist.ret PcDone            (* wg.Done() *)
  | PcDone => Hist.ret PcDone
  end.

Definition Goroutine : Type := Vm * Pc.

(** The runtime lets goroutine [i] take one step. *)
Fixpoint stepAt (i : nat) (gs : list Goroutine) : M (list Goroutine) :=
  match gs with
  | [] => Hist.ret []
  | (vm, pc) :: rest =>
      match i with
      | O => pc' <- goStep vm pc ;; Hist.ret ((vm, pc') :: rest)
      | S j => rest' <- stepAt j rest ;; Hist.ret ((vm, pc) :: rest')
      end
  end.

Fixpoint runSchedule (sched : list nat) (gs : list Goroutine)
  : M (list Goroutine) :=
  match sched with
  | [] => Hist.ret gs
  | i :: sched' => gs' <- stepAt i gs ;; runSchedule sched' gs'
  end.

Fixpoint goSteps (n : nat) (vm : Vm) (pc : Pc) : M Pc :=
  match n with
  | O => Hist.ret pc
  | S n' => pc' <- goStep vm pc ;; goSteps n' vm pc'
  end.

(** [wg.Wait()] blocks until every goroutine has called [wg.Done()]:
    whatever the schedule left unfinished still runs to its end. *)
Fixpoint waitAll (gs : list Goroutine) : M (list Goroutine) :=
  match gs with
  | [] => Hist.ret []
  | (vm, pc) :: rest =>
      pc' <- goSteps 6 vm pc ;;
      rest' <- waitAll rest ;;
      Hist.ret ((vm, pc') :: rest')
  end.

Definition fanOut (vms : list Vm) : M (list Goroutine) :=
  fun h =>
    (gs <- runSchedule (schedule eng h) (map (fun vm => (vm, PcStop)) vms) ;;
     waitAll gs) h.

Definition removeVMs (tag : string) : M (option error) :=
  let searchTerm := ("tag=" ++ tag)%string in
  logf Debug ("Searching VMs by " ++ searchTerm) ;;
  vmsResponse <- Hist.emit (Call (VmsSearch searchTerm))
                   (fun h => onVmsSearch eng h searchTerm) ;;
  match vmsResponse with
  | Err err => Hist.ret (Some err)
  | Ok vms =>
      logf Debug ("Found " ++ itoa (Z.of_nat (length vms)) ++ " VMs") ;;
      fanOut vms ;;
      Hist.ret None
  end.

Definition removeTag (tag : string) : M (option error) :=
  tagsServiceListResponse <- Hist.emit (Call TagsList) (onTagsList eng) ;;
  match tagsServiceListResponse with
  | Err err => Hist.ret (Some err)
  | Ok None => Hist.ret None
  | Ok (Some tags) =>
      Hist.forRange tags (fun t =>
        if String.eqb (tag_MustName t) tag then
          logf Info ("Removing tag " ++ tag_MustName t) ;;
          Hist.emit (Call (TagRemove (tag_MustId t)))
            (fun h => onTagRemove eng h (tag_MustId t))
        else Hist.ret None)
  end.

Definition removeTemplate : M (option error) :=
  if RemoveTemplate (Ovirt Metadata) then
    let term := ("name=" ++ InfraID Metadata ++ "-rhcos")%string in
    search <- Hist.emit (Call (TemplatesSearch term))
                (fun h => onTemplatesSearch eng h term) ;;
    match search with
    | Err _ =>
        Hist.ret (Some (errorString
          ("couldn't find a template with name " ++ InfraID Metadata)))
    | Ok None => Hist.ret None
    | Ok (Some result) =>
        Hist.forRange result (fun tmp =>
          logf Info ("Removing Template " ++ tmp_MustName tmp) ;;
          Hist.emit (Call (TemplateRemove (tmp_MustId tmp)))
            (fun h => onTemplateRemove eng h (tmp_MustId tmp)))
    end
  else Hist.ret None.

Definition removeAffinityGroups : M (option error) :=
  let cID := ClusterID (Ovirt Metadata) in
  res <- Hist.emit (Call (AffinityGroupsList cID))
           (fun h => onAffinityGroupsList eng h cID) ;;
  match res with
  | Err err => Hist.ret (Some err)
  | Ok groups =>
      Hist.forEach groups (fun ag =>
        if String.prefix (InfraID Metadata ++ "-") (ag_MustName ag) then
          logf Info ("Removing AffinityGroup " ++ ag_MustName ag) ;;
          err <- Hist.emit (Call (AffinityGroupRemove cID (ag_MustId ag)))
                   (fun h => onAffinityGroupRemove eng h cID (ag_MustId ag)) ;;
          match err with
          | Some e =>
              logf Error_ ("failed to remove AffinityGroup: " ++ Error e)
          | None => Hist.ret tt
          end
        else Hist.ret tt) ;;
      Hist.ret None
  end.

(** [if err := step; err != nil { Logger.Errorf(prefix, err) }] *)
Definition logged (prefix : string) (step : M (option error)) : M unit :=
  err <- step ;;
  match err with
  | Some e => logf Error_ (prefix ++ Error e)
  | None => Hist.ret tt
  end.

Definition Run : M (option ClusterQuota * option error) :=
  err <- Hist.emit (Call NewConnection) (onNewConnection eng) ;;
  match err with
  | Some e =>
      Hist.ret (None, Some (errorString
        ("failed to initialize connection to ovirt-engine's " ++ Error e)))
  | None =>
      let tagVMs := InfraID Metadata in
      let tagVMbootstrap := (InfraID Metadata ++ "-bootstrap")%string in
      let tags := [tagVMs; tagVMbootstrap] in
      Hist.forEach tags (fun tag =>
        logged "failed to remove VMs: " (removeVMs tag) ;;
        logged "failed to remove tag: " (removeTag tag)) ;;
      logged "Failed to remove template: " removeTemplate ;;
      logged "Failed to removing Affinity Groups: " removeAffinityGroups ;;
      Hist.emit (Call Close) (fun _ => tt) ;;    (* defer con.Close() *)
      Hist.ret (None, None)
  end.
End Destroyer.

(** *** Observations on the emitted events *)

Fixpoint callsOf (evs : list Event) : list Request :=
  match evs with
  | [] => []
  | Call r :: evs' => r :: callsOf evs'
  | Log _ _ :: evs' => callsOf evs'
  end.

(** The listing call that opens a teardown step. *)
Definition isDiscovery (r : Request) : bool :=
  match r with
  | VmsSearch _ | TagsList | TemplatesSearch _ | AffinityGroupsList _ => true
  | _ => false
  end.

Definition discoveries (evs : list Event) : list Request :=
  List.filter isDiscovery (callsOf evs).

(** The calls one deletion unit makes for its VM, in program order. *)
Definition unitCalls (vm : Vm) : list Request :=
  [VmStop (vm_MustId vm);
   WaitForVM (vm_MustId vm) VMSTATUS_DOWN (Minute * 10)%Z;
   VmRemove (vm_MustId vm)].

(** The calls a goroutine at [pc] still has to make. *)
Definition remaining (g : Goroutine) : list Request :=
  let vm := fst g in
  match snd g with
  | PcStop => unitCalls vm
  | PcStopLog _ | PcWait =>
      [WaitForVM (vm_MustId vm) VMSTATUS_DOWN (Minute * 10)%Z;
       VmRemove (vm_MustId vm)]
  | PcWaitLog _ | PcRemove => [VmRemove (vm_MustId vm)]
  | PcRemoveLog _ | PcDone => []
  end.

(** The atomic steps a goroutine at [pc] still has to take. *)
Definition stepsLeft (pc : Pc) : nat :=
  match pc with
  | PcStop => 6
  | PcStopLog _ => 5
  | PcWait => 4
  | PcWaitLog _ => 3
  | PcRemove => 2
  | PcRemoveLog _ => 1
  | PcDone => 0
  end.

(** [Interleaving ls out]: [out] is a merge of the lists [ls]; every
    element of every list occurs once, and each list keeps its order. *)
Inductive Interleaving {A : Type} : list (list A) -> list A -> Prop :=
| Interleaving_done ls :
    Forall (fun l => l = []) ls -> Interleaving ls []
| Interleaving_step pre x l post out :
    Interleaving (pre ++ l :: post) out ->
    Interleaving (pre ++ (x :: l) :: post) (x :: out).

Definition templateRemovals (ts : list Template) : list Request :=
  map (fun t => TemplateRemove (tmp_MustId t)) ts.

(** What the loop of [removeTemplate] emits for one template. *)
Definition templateRemovalEvents (t : Template) : list Event :=
  [Log Info ("Removing Template " ++ tmp_MustName t);
   Call (TemplateRemove (tmp_MustId t))].

End Ovirt.

(** ** vendor/.../alicloud/service_alicloud_sgw.go *)

Module Sgw.

(** The dynamic values held by a [map[string]interface{}]. *)
Inductive Value : Type :=
| VNil
| VBool (b : bool)
| VString (s : string)
| VInt (z : Z).

(** A Go map value: [None] is the nil map, which reads like an empty one. *)
Definition Obj : Type := option (gmap string Value).

Definition index (o : Obj) (k : string) : option Value :=
  match o with
  | None => None
  | Some m => m !! k
  end.

(** [fmt.Sprint(m[k])] *)
Definition Sprint (v : option Value) : string :=
  match v with
  | None | Some VNil => "<nil>"
  | Some (VBool true) => "true"
  | Some (VBool false) => "false"
  | Some (VString s) => s
  | Some (VInt z) => itoa z
  end.

(** Modelled from the spec: the message templates and error sources of the
    provider's error helpers, which are not among the sources; they are
    kept as symbolic constants. *)
Inductive MsgTemplate := NotFoundMsg | DefaultErrorMsg | FailedGetAttributeMsg.
Inductive ErrorSource := ProviderERROR | AlibabaCloudSdkGoERROR.

Inductive Arg : Type :=
| ArgString (s : string)
| ArgSource (s : ErrorSource)
| ArgObj (o : Obj).

(** Modelled from the spec: the provider's error constructors ([Error],
    [GetNotFoundMessage], [WrapError], [WrapErrorf]) and [fmt.Errorf],
    which are not among the sources.  Each is a free constructor that keeps
    its arguments, so nothing is assumed about how an error is rendered. *)
Inductive error : Type :=
| SdkError (code message : string)          (* raised by the connection *)
| ErrorNotFoundMessage (product id : string)(* Error(GetNotFoundMessage(..)) *)
| fmt_Errorf (format : string) (args : list Arg)
| WrapError (cause : error)
| WrapErrorf (cause : error) (msg : MsgTemplate) (args : list Arg).

Inductive result (A : Type) : Type :=
| Ok (a : A)
| Err (e : error).
Arguments Ok {A} a.
Arguments Err {A} e.

Inductive Event : Type :=
| NewHcsSgwClient
| DoRequest (action : string) (method version authType : string)
            (request : gmap string Value) (autoretry : bool)
| Sleep (d : Z)
| addDebug (action : string) (response : Obj) (request : gmap string Value).

Definition History := list Event.

(** The client and the endpoint behind it. *)
Record Client := {
  RegionId : string;
  onNewHcsSgwClient : History -> option error;
  onDoRequest : History -> string -> gmap string Value -> Obj * option error
}.

Abbreviation M := (Hist.M Event).

Definition Second : Z := 1000000000.
Definition Minute : Z := 60 * Second.

(** Time spent sleeping in a history, in nanoseconds. *)
Fixpoint slept (h : History) : Z :=
  match h with
  | [] => 0
  | Sleep d :: h' => d + slept h'
  | _ :: h' => slept h'
  end.

Definition now : M Z := fun h => (slept h, []).

(** [resource.RetryError] *)
Inductive RetryError : Type :=
| RetryableError (err : error)
| NonRetryableError (err : error).

Section Retry.
Context {S : Type}.
Local Open Scope hist_scope.

(** Modelled from the spec: [resource.Retry], which is not among the
    sources.  "Wraps any single external call with at most a bounded total
    duration of retrying; only errors matching a retryable classification
    are retried; all other errors are surfaced immediately as terminal."
    [f] is the closure with the variables it captures as its state [S].
    [None] is returned only when [fuel] attempts were not enough. *)
Fixpoint RetryLoop (fuel : nat) (deadline : Z)
         (f : S -> M (option RetryError * S)) (s : S)
  : M (option (option error * S)) :=
  match fuel with
  | O => Hist.ret None
  | Datatypes.S fuel' =>
      rs <- f s ;;
      match fst rs with
      | None => Hist.ret (Some (None, snd rs))
      | Some (NonRetryableError err) => Hist.ret (Some (Some err, snd rs))
      | Some (RetryableError err) =>
          t <- now ;;
          if (deadline <=? t)%Z
          then Hist.ret (Some (Some err, snd rs))
          else RetryLoop fuel' deadline f (snd rs)
      end
  end.

Definition Retry (fuel : nat) (timeout : Z)
           (f : S -> M (option RetryError * S)) (s : S)
  : M (option (option error * S)) :=
  start <- now ;;
  RetryLoop fuel (start + timeout)%Z f s.
End Retry.

(** Modelled from the spec: [incrementalWait], which is not among the
    sources.  "Wait between attempts increases by a fixed increment each
    retry (linear backoff), starting from a configured initial wait."
    The closure's counter starts at 1 and is its state. *)
Definition incrementalWait (firstDuration increaseDuration : Z)
           (retryCount : nat) : M nat :=
  Hist.emit
    (Sleep (firstDuration + Z.of_nat (retryCount - 1) * increaseDuration)%Z)
    (fun _ => Datatypes.S retryCount).

Section Service.
Variable client : Client.
(** The classification predicates of the provider, not among the sources. *)
Variable NeedRetry : error -> bool.
Variable IsExpectedErrors : error -> list string -> bool.
(** [jsonpath.Get(path, response)] followed by the type assertion. *)
Variable jsonpath_Get : string -> Obj -> result Obj.

Local Open Scope hist_scope.

Definition DescribeCloudStorageGatewayStorageBundle (id : string)
  : M (Obj * option error) :=
  err <- Hist.emit NewHcsSgwClient (onNewHcsSgwClient client) ;;
  match err with
  | Some err => Hist.ret (None, Some (WrapError err))
  | None =>
      let object : Obj := None in
      let action := "DescribeStorageBundle" in
      let request : gmap string Value :=
        <["RegionId" := VString (RegionId client)]>
          (<["StorageBundleId" := VString id]> ∅) in
      r <- Hist.emit (DoRequest action "POST" "2018-05-11" "AK" request true)
             (fun h => onDoRequest client h action request) ;;
      let response := fst r in
      match snd r with
      | Some err =>
          if IsExpectedErrors err ["StorageBundleNotExist"] then
            Hist.ret (object,
              Some (WrapErrorf
                (ErrorNotFoundMessage "CloudStorageGatewayStorageBundle" id)
                NotFoundMsg [ArgSource ProviderERROR]))
          else
            Hist.ret (object,
              Some (WrapErrorf err DefaultErrorMsg
                [ArgString id; ArgString action;
                 ArgSource AlibabaCloudSdkGoERROR]))
      | None =>
          Hist.emit (addDebug action response request) (fun _ => tt) ;;
          match jsonpath_Get "$" response with
          | Err err =>
              Hist.ret (object,
                Some (WrapErrorf err FailedGetAttributeMsg
                  [ArgString id; ArgString "$"; ArgObj response]))
          | Ok v => Hist.ret (v, None)
          end
      end
  end.

(** The variables captured by the retried closure: [response], [err] and
    the counter of [wait]. *)
Definition Captured : Type := Obj * option error * nat.

(** The closure passed to [resource.Retry] in [DescribeCloudStorageGatewayGateway]. *)
Definition DescribeCloudStorageGatewayGateway_func1 (action : string)
           (request : gmap string Value) (c : Captured)
  : M (option RetryError * Captured) :=
  let wait := incrementalWait (3 * Second) (3 * Second) in
  r <- Hist.emit (DoRequest action "POST" "2018-05-11" "AK" request true)
         (fun h => onDoRequest client h action request) ;;
  match snd r with
  | Some err =>
      if NeedRetry err then
        n <- wait (snd c) ;;
        Hist.ret (Some (RetryableError err), (fst r, Some err, n))
      else
        Hist.ret (Some (NonRetryableError err), (fst r, Some err, snd c))
  | None => Hist.ret (None, (fst r, None, snd c))
  end.

Definition DescribeCloudStorageGatewayGateway (fuel : nat) (id : string)
  : M (option (Obj * option error)) :=
  err <- Hist.emit NewHcsSgwClient (onNewHcsSgwClient client) ;;
  match err with
  | Some err => Hist.ret (Some (None, Some (WrapError err)))
  | None =>
      let object : Obj := None in
      let action := "DescribeGateway" in
      let request : gmap string Value := <["GatewayId" := VString id]> ∅ in
      ret <- Retry fuel (5 * Minute)
               (DescribeCloudStorageGatewayGateway_func1 action request)
               (None, None, 1) ;;
      match ret with
      | None => Hist.ret None
      | Some (err, (response, _, _)) =>
          Hist.emit (addDebug action response request) (fun _ => tt) ;;
          match err with
          | Some err =>
              if IsExpectedErrors err ["GatewayNotExist"] then
                Hist.ret (Some (object,
                  Some (WrapErrorf
                    (ErrorNotFoundMessage "CloudStorageGateway:Gateway" id)
                    NotFoundMsg
                    [ArgSource ProviderERROR;
                     ArgString (Sprint (index response "RequestId"))])))
              else
                Hist.ret (Some (object,
                  Some (WrapErrorf err DefaultErrorMsg
                    [ArgString id; ArgString action;
                     ArgSource AlibabaCloudSdkGoERROR])))
          | None =>
              if String.eqb (Sprint (index response "Success")) "false" then
                Hist.ret (Some (object,
                  Some (WrapError (fmt_Errorf "%s failed, response: %v"
                    [ArgString action; ArgObj response]))))
              else
                match jsonpath_Get "$" response with
                | Err err =>
                    Hist.ret (Some (object,
                      Some (WrapErrorf err FailedGetAttributeMsg
                        [ArgString id; ArgString "$"; ArgObj response])))
                | Ok v => Hist.ret (Some (v, None))
                end
          end
      end
  end.

(** The closure passed to [resource.Retry] in [DescribeGateway]. *)
Definition DescribeGateway_func1 (action : string)
           (request : gmap string Value) (c : Captured)
  : M (option RetryError * Captured) :=
  let wait := incrementalWait (3 * Second) (3 * Second) in
  r <- Hist.emit (DoRequest action "POST" "2018-05-11" "AK" request true)
         (fun h => onDoRequest client h action request) ;;
  match snd r with
  | Some err =>
      if NeedRetry err then
        n <- wait (snd c) ;;
        Hist.ret (Some (RetryableError err), (fst r, Some err, n))
      else
        Hist.ret (Some (NonRetryableError err), (fst r, Some err, snd c))
  | None => Hist.ret (None, (fst r, None, snd c))
  end.

Definition DescribeGateway (fuel : nat) (id : string)
  : M (option (Obj * option error)) :=
  err <- Hist.emit NewHcsSgwClient (onNewHcsSgwClient client) ;;
  match err with
  | Some err => Hist.ret (Some (None, Some (WrapError err)))
  | None =>
      let object : Obj := None in
      let action := "DescribeGateway" in
      let request : gmap string Value := <["GatewayId" := VString id]> ∅ in
      ret <- Retry fuel (5 * Minute)
               (DescribeGateway_func1 action request)
               (None, None, 1) ;;
      match ret with
      | None => Hist.ret None
      | Some (err, (response, _, _)) =>
          Hist.emit (addDebug action response request) (fun _ => tt) ;;
          match err with
          | Some err =>
              if IsExpectedErrors err ["GatewayNotExist"] then
                Hist.ret (Some (object,
                  Some (WrapErrorf
                    (ErrorNotFoundMessage "CloudStorageGateway:Gateway" id)
                    NotFoundMsg
                    [ArgSource ProviderERROR;
                     ArgString (Sprint (index response "RequestId"))])))
              else
                Hist.ret (Some (object,
                  Some (WrapErrorf err DefaultErrorMsg
                    [ArgString id; ArgString action;
                     ArgSource AlibabaCloudSdkGoERROR])))
          | None =>
              if String.eqb (Sprint (index response "Success")) "false" then
                Hist.ret (Some (object,
                  Some (WrapError (fmt_Errorf "%s failed, response: %v"
                    [ArgString action; ArgObj response]))))
              else
                match jsonpath_Get "$" response with
                | Err err =>
                    Hist.ret (Some (object,
                      Some (WrapErrorf err FailedGetAttributeMsg
                        [ArgString id; ArgString "$"; ArgObj response])))
                | Ok v => Hist.ret (Some (v, None))
                end
          end
      end
  end.
End Service.

(** *** Observations on the emitted events *)

Fixpoint sleepsOf (evs : list Event) : list Z :=
  match evs with
  | [] => []
  | Sleep d :: evs' => d :: sleepsOf evs'
  | _ :: evs' => sleepsOf evs'
  end.

Definition isAttempt (e : Event) : bool :=
  match e with
  | DoRequest _ _ _ _ _ _ => true
  | _ => false
  end.

Definition attempts (evs : list Event) : nat :=
  length (List.filter isAttempt evs).

(** The [k]-th wait of a linear backoff, counting from 0. *)
Definition linearWait (first increase : Z) (k : nat) : Z :=
  (first + Z.of_nat k * increase)%Z.



End Sgw.

(** ** pkg/asset/installconfig/alibabacloud/metadata.go *)

Module Alibaba.

(** A pointer to a client: the address of a constructed client. *)
Definition Client : Type := nat.

Inductive error : Type := errorString (msg : string).

Record Metadata := {
  client : option Client;       (* nil is [None] *)
  Region : string
}.

Definition NewMetadata (region : string) : Metadata :=
  {| client := None; Region := region |}.

Inductive Event : Type :=
| NewClient (regionID : string).

Definition History := list Event.
Abbreviation M := (Hist.M Event).

Section Client.
(** [NewClient], which is not among the sources: what the constructor
    returns, given the constructions made before. *)
Variable onNewClient : History -> string -> option Client * option error.

Local Open Scope hist_scope.

(** The method [Client] of [Metadata]: it returns the client and the
    error, and the receiver it may have updated. *)
Definition Metadata_Client (m : Metadata)
  : M (option Client * option error * Metadata) :=
  match client m with
  | None =>
      r <- Hist.emit (NewClient (Region m))
             (fun h => onNewClient h (Region m)) ;;
      match snd r with
      | Some err => Hist.ret (None, Some err, m)
      | None =>
          let m' := {| client := fst r; Region := Region m |} in
          Hist.ret (client m', None, m')
      end
  | Some c => Hist.ret (Some c, None, m)
  end.

(** Successive calls on the same receiver. *)
Fixpoint calls (n : nat) (m : Metadata)
  : M (list (option Client * option error) * Metadata) :=
  match n with
  | O => Hist.ret ([], m)
  | Datatypes.S n' =>
      r <- Metadata_Client m ;;
      rest <- calls n' (snd r) ;;
      Hist.ret (fst r :: fst rest, snd rest)
  end.
End Client.

End Alibaba.

(** ** Concrete environments

    The end-to-end scenario of the specification (infrastructure id
    "abc123", two general VMs, one bootstrap VM, one template, one affinity
    group) and variations of it in which calls fail. *)

Module Scenario.
Import Ovirt.

Definition md : ClusterMetadata :=
  {| InfraID := "abc123";
     Ovirt := {| ClusterID := "cluster-1"; RemoveTemplate := true |} |}.

Definition mdKeepTemplate : ClusterMetadata :=
  {| InfraID := "abc123";
     Ovirt := {| ClusterID := "cluster-1"; RemoveTemplate := false |} |}.

Definition vm1 : Vm := {| vm_MustId := "vm-1"; vm_MustName := "abc123-master-0" |}.
Definition vm2 : Vm := {| vm_MustId := "vm-2"; vm_MustName := "abc123-worker-0" |}.
Definition vm3 : Vm := {| vm_MustId := "vm-3"; vm_MustName := "abc123-bootstrap" |}.

Definition tagGeneral : Tag := {| tag_MustId := "tag-1"; tag_MustName := "abc123" |}.
Definition tagBootstrap : Tag :=
  {| tag_MustId := "tag-2"; tag_MustName := "abc123-bootstrap" |}.

Definition tmp1 : Template := {| tmp_MustId := "tmp-1"; tmp_MustName := "abc123-rhcos" |}.
Definition tmp2 : Template :=
  {| tmp_MustId := "tmp-2"; tmp_MustName := "abc123-rhcos-old" |}.

Definition ag1 : AffinityGroup := {| ag_MustId := "ag-1"; ag_MustName := "abc123-ag1" |}.
Definition agOther : AffinityGroup :=
  {| ag_MustId := "ag-2"; ag_MustName := "other-ag" |}.

(** An engine that answers by request only, whatever happened before. *)
Definition mkEngine (vmsFor : string -> result (list Vm))
           (onVm : string -> option error) (onTag : string -> option error)
           (templates : list Template) (onTemplate : string -> option error)
           (sched : list nat) : Engine :=
  {| onNewConnection := fun _ => None;
     onVmsSearch := fun _ term => vmsFor term;
     onTagsList := fun _ => Ok (Some [tagGeneral; tagBootstrap]);
     onTagRemove := fun _ id => onTag id;
     onVmStop := fun _ id => onVm id;
     onWaitForVM := fun _ id _ _ => onVm id;
     onVmRemove := fun _ id => onVm id;
     onTemplatesSearch := fun _ _ => Ok (Some templates);
     onTemplateRemove := fun _ id => onTemplate id;
     onAffinityGroupsList := fun _ _ => Ok [ag1; agOther];
     onAffinityGroupRemove := fun _ _ _ => None;
     schedule := fun _ => sched |}.

Definition vmsByTag (term : string) : result (list Vm) :=
  if String.eqb term "tag=abc123" then Ok [vm1; vm2]
  else if String.eqb term "tag=abc123-bootstrap" then Ok [vm3]
  else Ok [].

Definition always (r : option error) (id : string) : option error := r.

(** Everything succeeds; the two general VMs take turns. *)
Definition engine : Engine :=
  mkEngine vmsByTag (always None) (always None) [tmp1] (always None)
           [0; 1; 0; 1; 0; 1; 0; 1; 0; 1; 0; 1].

(** The first VM cannot be stopped, does not power off and is not removed. *)
Definition stubborn : Engine :=
  mkEngine vmsByTag
    (fun id => if String.eqb id "vm-1" then Some (ApiError "locked") else None)
    (always None) [tmp1] (always None) [1; 1; 0; 7; 1].

(** The VM search itself fails. *)
Definition searchFails : Engine :=
  mkEngine (fun _ => Err (ApiError "search failed")) (always None)
    (always None) [tmp1] (always None) [].

(** No VM carries the tags. *)
Definition noVms : Engine :=
  mkEngine (fun _ => Ok []) (always None) (always None) [tmp1] (always None)
    [2; 0].

(** Two templates match; removing the first one fails. *)
Definition templateFails : Engine :=
  mkEngine vmsByTag (always None) (always None) [tmp1; tmp2]
    (fun id => if String.eqb id "tmp-1" then Some (ApiError "in use") else None)
    [].

(** The engine reports every tag and VM removal target as not found. *)
Definition alreadyGone : Engine :=
  mkEngine vmsByTag (always (Some (NotFoundError "404 not found")))
    (always (Some (NotFoundError "404 not found"))) [tmp1] (always None) [].

End Scenario.

Module SgwScenario.
Import Sgw.

Definition throttled : error := SdkError "Throttling" "request was throttled".
Definition forbidden : error := SdkError "Forbidden" "not authorised".
Definition gatewayNotExist : error :=
  SdkError "GatewayNotExist" "the gateway does not exist".
Definition bundleNotExist : error :=
  SdkError "StorageBundleNotExist" "the bundle does not exist".

(** A classification that retries throttling only. *)
Definition NeedRetry (err : error) : bool :=
  match err with
  | SdkError code _ => String.eqb code "Throttling"
  | _ => false
  end.

Definition IsExpectedErrors (err : error) (codes : list string) : bool :=
  match err with
  | SdkError code _ => existsb (String.eqb code) codes
  | _ => false
  end.

Definition jsonpath_Get (path : string) (o : Obj) : result Obj := Ok o.

Definition gateway : Obj :=
  Some (<["GatewayId" := VString "gw-1"]> (<["Success" := VBool true]> ∅)).

(** A client that answers the attempts in turn from a script, and
    [otherwise] once the script is used up. *)
Definition scripted (script : list (Obj * option error))
           (otherwise : Obj * option error) : Client :=
  {| RegionId := "cn-hangzhou";
     onNewHcsSgwClient := fun _ => None;
     onDoRequest := fun h _ _ => nth (attempts h) script otherwise |}.

(** A client for which neither the bundle nor the gateway exists; the first
    gateway request is throttled. *)
Definition nothingThere : Client :=
  {| RegionId := "cn-hangzhou";
     onNewHcsSgwClient := fun _ => None;
     onDoRequest := fun h action _ =>
       if String.eqb action "DescribeStorageBundle"
       then (None, Some bundleNotExist)
       else nth (attempts h) [(None, Some throttled)]
                (None, Some gatewayNotExist) |}.

End SgwScenario.

Module AlibabaScenario.
Import Alibaba.

(** A constructor that fails until it has been called [failures] times and
    then hands out the next free address. *)
Definition flaky (failures : nat) (h : History) (region : string)
  : option Client * option error :=
  if Nat.ltb (length h) failures
  then (None, Some (errorString "credentials not available"))
  else (Some (length h), None).

End AlibabaScenario.

(** ** Further observations

    Vocabulary for the properties of the functions around the teardown
    steps: what each step is allowed to call, and what one deletion unit
    emits when it runs alone. *)

Module OvirtObs.
Import Ovirt.

Definition tagRemovals (ts : list Tag) : list Request :=
  map (fun t => TagRemove (tag_MustId t)) ts.

(** What the loop of [removeTag] emits for one tag of the given name. *)
Definition tagRemovalEvents (t : Tag) : list Event :=
  [Log Info ("Removing tag " ++ tag_MustName t);
   Call (TagRemove (tag_MustId t))].

(** The tags [removeTag] selects: [t.MustName() == tag]. *)
Definition matchingTags (tag : string) (tags : list Tag) : list Tag :=
  List.filter (fun t => String.eqb (tag_MustName t) tag) tags.

(** The groups [removeAffinityGroups] selects:
    [strings.HasPrefix(ag.MustName(), InfraID + "-")]. *)
Definition ownGroups (md : ClusterMetadata) (groups : list AffinityGroup)
  : list AffinityGroup :=
  List.filter (fun ag => String.prefix (InfraID md ++ "-") (ag_MustName ag))
    groups.

Definition groupRemovals (cID : string) (groups : list AffinityGroup)
  : list Request :=
  map (fun ag => AffinityGroupRemove cID (ag_MustId ag)) groups.

Definition isVmCall (r : Request) : bool :=
  match r with
  | VmsSearch _ | VmStop _ | WaitForVM _ _ _ | VmRemove _ => true
  | _ => false
  end.

Definition isTagCall (r : Request) : bool :=
  match r with
  | TagsList | TagRemove _ => true
  | _ => false
  end.

Definition isTemplateCall (r : Request) : bool :=
  match r with
  | TemplatesSearch _ | TemplateRemove _ => true
  | _ => false
  end.

Definition isGroupCall (r : Request) : bool :=
  match r with
  | AffinityGroupsList _ | AffinityGroupRemove _ _ => true
  | _ => false
  end.

(** The calls made between opening and closing the connection. *)
Definition isTeardownCall (r : Request) : bool :=
  isVmCall r || isTagCall r || isTemplateCall r || isGroupCall r.

(** What the goroutine of [vm] emits when nothing else runs: the events of
    [stopVM] followed by [removeVM]. *)
Definition unitEvents (eng : Engine) (vm : Vm) : list Event :=
  snd (Hist.bind (stopVM eng vm) (fun _ => removeVM eng vm) []).

(** The events a goroutine at [pc] still has to emit when nothing else
    runs. *)
Definition remainingEvents (eng : Engine) (g : Goroutine) : list Event :=
  snd (goSteps eng (stepsLeft (snd g)) (fst g) (snd g) []).

(** An engine whose answers about a VM depend on the VM only, not on what
    was done to other resources before. *)
Definition vmAnswersFixed (eng : Engine) : Prop :=
  (forall h h' id, onVmStop eng h id = onVmStop eng h' id)
  /\ (forall h h' id st d, onWaitForVM eng h id st d = onWaitForVM eng h' id st d)
  /\ (forall h h' id, onVmRemove eng h id = onVmRemove eng h' id).

End OvirtObs.

Module SgwObs.
Import Sgw.

(** A result never carries both an object and an error. *)
Definition errorExcludesObject (r : Obj * option error) : Prop :=
  snd r = None \/ fst r = None.

(** The events of a retried call: attempts each followed by a wait, and
    possibly a last attempt that is not followed by one. *)
Fixpoint retryShape (evs : list Event) : bool :=
  match evs with
  | [] => true
  | DoRequest _ _ _ _ _ _ :: Sleep _ :: evs' => retryShape evs'
  | [DoRequest _ _ _ _ _ _] => true
  | _ => false
  end.

End SgwObs.

Module AlibabaObs.
Import Alibaba.

(** The calls of a sequence that returned no client. *)
Definition withoutClient (results : list (option Client * option error))
  : nat :=
  length (List.filter (fun r => match fst r with None => true | Some _ => false end)
            results).

(** Whether the cache went from empty to filled. *)
Definition filled (before after : Metadata) : nat :=
  match client before, client after with
  | None, Some _ => 1
  | _, _ => 0
  end.

End AlibabaObs.

(** * Properties *)

(** ** The history monad *)

Module HistFacts.
Section WithEvent.
Context {Event : Type}.
Implicit Types h : list Event.

Lemma bind_fst {A B} (m : Hist.M Event A) (f : A -> Hist.M Event B) h :
  fst (Hist.bind m f h) = fst (f (fst (m h)) (h ++ snd (m h))).
Proof.
  unfold Hist.bind. destruct (m h) as [a e1]; simpl.
  now destruct (f a (h ++ e1)).
Qed.

Lemma bind_snd {A B} (m : Hist.M Event A) (f : A -> Hist.M Event B) h :
  snd (Hist.bind m f h) = snd (m h) ++ snd (f (fst (m h)) (h ++ snd (m h))).
Proof.
  unfold Hist.bind. destruct (m h) as [a e1]; simpl.
  now destruct (f a (h ++ e1)).
Qed.

Lemma bind_run {A B} (m : Hist.M Event A) (f : A -> Hist.M Event B) h :
  Hist.bind m f h =
  (fst (f (fst (m h)) (h ++ snd (m h))),
   snd (m h) ++ snd (f (fst (m h)) (h ++ snd (m h)))).
Proof.
  rewrite <- bind_fst, <- bind_snd. now destruct (Hist.bind m f h).
Qed.

Lemma emit_run {A} (e : Event) (answer : list Event -> A) h :
  Hist.emit e answer h = (answer h, [e]).
Proof. reflexivity. Qed.

Lemma ret_run {A} (a : A) h : Hist.ret a h = (a, @nil Event).
Proof. reflexivity. Qed.
End WithEvent.
End HistFacts.

Ltac hist_simpl :=
  repeat (rewrite ?HistFacts.bind_run, ?HistFacts.emit_run,
            ?HistFacts.ret_run; cbn [fst snd]).

(** ** The oVirt destroyer *)

Module OvirtFacts.
Import Ovirt.

Lemma callsOf_app (a b : list Event) : callsOf (a ++ b) = callsOf a ++ callsOf b.
Proof.
  induction a as [|[r|lvl msg] a IH]; simpl; now rewrite ?IH.
Qed.

Lemma logf_run (lvl : Level) (msg : string) (h : History) :
  logf lvl msg h = (tt, [Log lvl msg]).
Proof. reflexivity. Qed.

Lemma discoveries_app (a b : list Event) :
  discoveries (a ++ b) = discoveries a ++ discoveries b.
Proof. unfold discoveries. now rewrite callsOf_app, List.filter_app. Qed.

(** *** Merges *)

Lemma Interleaving_Forall {A} (P : A -> Prop) (ls : list (list A)) out :
  Interleaving ls out -> Forall (Forall P) ls -> Forall P out.
Proof.
  induction 1 as [ls _|pre x l post out _ IH]; intros HP; [constructor|].
  apply Forall_app in HP as [Hpre Hx].
  apply Forall_cons_iff in Hx as [Hx Hpost].
  apply Forall_cons_iff in Hx as [Hx Hl].
  constructor; [exact Hx|].
  apply IH, Forall_app; split; [exact Hpre|]. now constructor.
Qed.

Lemma Interleaving_length {A} (ls : list (list A)) out :
  Interleaving ls out -> length out = length (concat ls).
Proof.
  induction 1 as [ls Hnil|pre x l post out _ IH].
  - induction Hnil as [|l ls -> _ IH]; simpl; [reflexivity|exact IH].
  - simpl. rewrite IH, !concat_app. simpl.
    rewrite !length_app. simpl. rewrite !length_app. lia.
Qed.

Lemma Interleaving_Permutation {A} (ls : list (list A)) out :
  Interleaving ls out -> Permutation out (concat ls).
Proof.
  induction 1 as [ls Hnil|pre x l post out _ IH].
  - induction Hnil as [|l ls -> _ IH]; simpl; [constructor|exact IH].
  - rewrite concat_app in *. simpl in *.
    apply Permutation_cons_app. exact IH.
Qed.

Section Fanout.
Variable eng : Engine.

(** One step of a goroutine makes the next call it has to make, or none. *)
Lemma goStep_remaining (vm : Vm) (pc : Pc) (h : History) :
  remaining (vm, pc) =
  callsOf (snd (goStep eng vm pc h))
    ++ remaining (vm, fst (goStep eng vm pc h)).
Proof.
  destruct pc as [|[e|]| |[e|]| |[e|]|]; reflexivity.
Qed.

Lemma Interleaving_emit {A} pre (c l : list A) post out :
  Interleaving (pre ++ l :: post) out ->
  Interleaving (pre ++ (c ++ l) :: post) (c ++ out).
Proof.
  induction c as [|x c IH]; intros H; simpl; [exact H|].
  apply Interleaving_step. now apply IH.
Qed.

Lemma stepAt_merge (i : nat) (gs : list Goroutine) (h : History) pre post out :
  Interleaving (pre ++ map remaining (fst (stepAt eng i gs h)) ++ post) out ->
  Interleaving (pre ++ map remaining gs ++ post)
               (callsOf (snd (stepAt eng i gs h)) ++ out).
Proof.
  revert i pre h. induction gs as [|[vm pc] gs IH]; intros i pre h.
  - destruct i; cbn; intros H; exact H.
  - destruct i as [|j]; cbn [stepAt]; hist_simpl.
    + rewrite app_nil_r. cbn [map]. rewrite <- !app_comm_cons.
      rewrite (goStep_remaining vm pc h). apply Interleaving_emit.
    + rewrite app_nil_r. cbn [map]. rewrite <- !app_comm_cons.
      intros H.
      specialize (IH j (pre ++ [remaining (vm, pc)]) h).
      rewrite <- !app_assoc in IH. simpl in IH. now apply IH.
Qed.

Lemma runSchedule_merge (sched : list nat) (gs : list Goroutine) (h : History) out :
  Interleaving (map remaining (fst (runSchedule eng sched gs h))) out ->
  Interleaving (map remaining gs)
               (callsOf (snd (runSchedule eng sched gs h)) ++ out).
Proof.
  revert gs h. induction sched as [|i sched IH]; intros gs h.
  - cbn; intros H; exact H.
  - cbn [runSchedule]; hist_simpl. intros H.
    rewrite callsOf_app, <- app_assoc.
    pose proof (stepAt_merge i gs h [] []) as Hs.
    simpl in Hs. rewrite !app_nil_r in Hs.
    apply Hs, IH, H.
Qed.

Lemma goSteps_merge (n : nat) (vm : Vm) (pc : Pc) (h : History) pre post out :
  Interleaving (pre ++ remaining (vm, fst (goSteps eng n vm pc h)) :: post) out ->
  Interleaving (pre ++ remaining (vm, pc) :: post)
               (callsOf (snd (goSteps eng n vm pc h)) ++ out).
Proof.
  revert pc h. induction n as [|n IH]; intros pc h.
  - cbn; intros H; exact H.
  - cbn [goSteps]; hist_simpl. intros H.
    rewrite callsOf_app, <- app_assoc.
    rewrite (goStep_remaining vm pc h). apply Interleaving_emit.
    now apply IH.
Qed.

Lemma goStep_stepsLeft (vm : Vm) (pc : Pc) (h : History) :
  stepsLeft (fst (goStep eng vm pc h)) = pred (stepsLeft pc).
Proof.
  destruct pc as [|[e|]| |[e|]| |[e|]|]; reflexivity.
Qed.

Lemma goSteps_stepsLeft (n : nat) (vm : Vm) (pc : Pc) (h : History) :
  stepsLeft (fst (goSteps eng n vm pc h)) = stepsLeft pc - n.
Proof.
  revert pc h. induction n as [|n IH]; intros pc h.
  - cbn. lia.
  - cbn [goSteps]. rewrite HistFacts.bind_fst, IH, goStep_stepsLeft. lia.
Qed.

(** Six steps take a goroutine to [wg.Done()] from wherever it is. *)
Lemma goSteps_done (vm : Vm) (pc : Pc) (h : History) :
  fst (goSteps eng 6 vm pc h) = PcDone.
Proof.
  pose proof (goSteps_stepsLeft 6 vm pc h) as H.
  destruct (fst (goSteps eng 6 vm pc h)), pc; cbn in H; try lia; reflexivity.
Qed.

(** Scheduling moves program counters only. *)
Lemma stepAt_vms (i : nat) (gs : list Goroutine) (h : History) :
  map fst (fst (stepAt eng i gs h)) = map fst gs.
Proof.
  revert i h. induction gs as [|[vm pc] gs IH]; intros i h.
  - destruct i; reflexivity.
  - destruct i as [|j]; cbn [stepAt]; hist_simpl; cbn [map fst].
    + reflexivity.
    + now rewrite IH.
Qed.

Lemma runSchedule_vms (sched : list nat) (gs : list Goroutine) (h : History) :
  map fst (fst (runSchedule eng sched gs h)) = map fst gs.
Proof.
  revert gs h. induction sched as [|i sched IH]; intros gs h.
  - reflexivity.
  - cbn [runSchedule]. rewrite HistFacts.bind_fst, IH. apply stepAt_vms.
Qed.

Lemma waitAll_merge (gs : list Goroutine) (h : History) pre :
  Forall (fun l => l = []) pre ->
  Interleaving (pre ++ map remaining gs) (callsOf (snd (waitAll eng gs h)))
  /\ fst (waitAll eng gs h) = map (fun g => (fst g, PcDone)) gs.
Proof.
  revert h pre. induction gs as [|[vm pc] gs IH]; intros h pre Hpre.
  - cbn. rewrite app_nil_r. split; [now constructor|reflexivity].
  - cbn [waitAll]; hist_simpl. rewrite app_nil_r, callsOf_app.
    set (h1 := h ++ snd (goSteps eng 6 vm pc h)).
    destruct (IH h1 (pre ++ [[]])) as [Hm Hd].
    { apply Forall_app; split; [exact Hpre|]. repeat constructor. }
    split.
    + cbn [map]. apply goSteps_merge. rewrite goSteps_done.
      rewrite <- app_assoc in Hm. exact Hm.
    + rewrite Hd, goSteps_done. reflexivity.
Qed.

(** The fan-out: every unit's calls are made, each unit in its order,
    and all goroutines have finished when it returns. *)
Lemma fanOut_merge (vms : list Vm) (h : History) :
  Interleaving (map unitCalls vms) (callsOf (snd (fanOut eng vms h)))
  /\ fst (fanOut eng vms h) = map (fun vm => (vm, PcDone)) vms.
Proof.
  unfold fanOut; hist_simpl. rewrite callsOf_app.
  set (gs0 := map (fun vm => (vm, PcStop)) vms).
  set (r := runSchedule eng (schedule eng h) gs0 h).
  destruct (waitAll_merge (fst r) (h ++ snd r) [] (List.Forall_nil _)) as [Hm Hd].
  split.
  - replace (map unitCalls vms) with (map remaining gs0)
      by (unfold gs0; rewrite map_map; reflexivity).
    apply runSchedule_merge. exact Hm.
  - rewrite Hd, <- (map_map fst (fun vm => (vm, PcDone))).
    unfold r. rewrite runSchedule_vms. unfold gs0.
    rewrite !map_map. reflexivity.
Qed.

Ltac hist_norm :=
  repeat progress
    (hist_simpl; cbn [goStep]; unfold logf; cbv beta zeta;
     rewrite ?app_nil_r, <- ?app_assoc; cbn [app]).

(** Left alone, a goroutine runs the body written in the source. *)
Lemma goroutine_program (vm : Vm) (h : History) :
  goSteps eng 6 vm PcStop h =
  Hist.bind (stopVM eng vm) (fun _ =>
    Hist.bind (removeVM eng vm) (fun _ => Hist.ret PcDone)) h.
Proof.
  unfold stopVM, removeVM. cbn [goSteps].
  repeat (hist_norm;
          match goal with
          | |- context [match ?x with Some _ => _ | None => _ end] =>
              destruct x
          end).
  all: hist_norm.
  all: reflexivity.
Qed.

Lemma fanOut_nil (h : History) : fanOut eng [] h = ([], []).
Proof.
  unfold fanOut; hist_simpl. cbn [map].
  assert (Hs : forall sched h', runSchedule eng sched [] h' = ([], [])).
  { induction sched as [|i sched IH]; intros h'; [reflexivity|].
    cbn [runSchedule]; hist_simpl. destruct i; cbn; now rewrite IH. }
  rewrite Hs. reflexivity.
Qed.

Lemma discoveries_fanOut (vms : list Vm) (h : History) :
  discoveries (snd (fanOut eng vms h)) = [].
Proof.
  destruct (fanOut_merge vms h) as [Hm _]. unfold discoveries.
  apply (Interleaving_Forall (fun r => isDiscovery r = false)) in Hm.
  - induction Hm as [|r rs Hr _ IH]; simpl; [reflexivity|].
    now rewrite Hr.
  - apply List.Forall_forall. intros l Hl.
    apply in_map_iff in Hl as [vm [<- _]]. repeat constructor.
Qed.
End Fanout.

Section Steps.
Variable eng : Engine.
Variable md : ClusterMetadata.

Lemma discoveries_forRange {A R} (xs : list A)
      (body : A -> Hist.M Event (option R)) :
  (forall x h, discoveries (snd (body x h)) = []) ->
  forall h, discoveries (snd (Hist.forRange xs body h)) = [].
Proof.
  intros Hb. induction xs as [|x xs IH]; intros h; [reflexivity|].
  cbn [Hist.forRange]. rewrite HistFacts.bind_snd, discoveries_app, Hb.
  destruct (fst (body x h)); [reflexivity|apply IH].
Qed.

Lemma discoveries_forEach {A} (xs : list A) (body : A -> Hist.M Event unit) :
  (forall x h, discoveries (snd (body x h)) = []) ->
  forall h, discoveries (snd (Hist.forEach xs body h)) = [].
Proof.
  intros Hb. induction xs as [|x xs IH]; intros h; [reflexivity|].
  cbn [Hist.forEach]. rewrite HistFacts.bind_snd, discoveries_app, Hb.
  apply IH.
Qed.

Lemma discoveries_removeVMs (tag : string) (h : History) :
  discoveries (snd (removeVMs eng tag h)) = [VmsSearch ("tag=" ++ tag)].
Proof.
  unfold removeVMs. hist_simpl.
  destruct (onVmsSearch eng _ _) as [vms|e]; hist_simpl.
  - rewrite ?app_nil_r, !discoveries_app, discoveries_fanOut. reflexivity.
  - reflexivity.
Qed.

Lemma discoveries_removeTag (tag : string) (h : History) :
  discoveries (snd (removeTag eng tag h)) = [TagsList].
Proof.
  unfold removeTag. hist_simpl.
  destruct (onTagsList eng h) as [[tags|]|e]; hist_simpl; try reflexivity.
  rewrite discoveries_app, discoveries_forRange; [reflexivity|].
  intros t h'. destruct (String.eqb _ _); hist_simpl; reflexivity.
Qed.

Lemma discoveries_removeTemplate (h : History) :
  discoveries (snd (removeTemplate eng md h)) =
  if RemoveTemplate (Ovirt md)
  then [TemplatesSearch ("name=" ++ InfraID md ++ "-rhcos")]
  else [].
Proof.
  unfold removeTemplate. destruct (RemoveTemplate (Ovirt md)); [|reflexivity].
  hist_simpl.
  destruct (onTemplatesSearch eng h _) as [[result|]|e]; hist_simpl;
    try reflexivity.
  rewrite discoveries_app, discoveries_forRange; [reflexivity|].
  intros t h'. hist_simpl. reflexivity.
Qed.

Lemma discoveries_removeAffinityGroups (h : History) :
  discoveries (snd (removeAffinityGroups eng md h)) =
  [AffinityGroupsList (ClusterID (Ovirt md))].
Proof.
  unfold removeAffinityGroups. hist_simpl.
  destruct (onAffinityGroupsList eng h _) as [groups|e]; hist_simpl;
    try reflexivity.
  rewrite app_nil_r, discoveries_app, discoveries_forEach; [reflexivity|].
  intros ag h'. destruct (String.prefix _ _); hist_simpl; [|reflexivity].
  destruct (onAffinityGroupRemove eng _ _ _); reflexivity.
Qed.

Lemma discoveries_logged (prefix : string)
      (step : Hist.M Event (option error)) (h : History) :
  discoveries (snd (logged prefix step h)) = discoveries (snd (step h)).
Proof.
  unfold logged. hist_simpl. rewrite discoveries_app.
  destruct (fst (step h)); cbn; now rewrite app_nil_r.
Qed.
End Steps.

(** *** The sequencer *)

(** An error of a step is logged and nothing else happens with it. *)
Lemma logged_run (prefix : string) (step : Hist.M Event (option error))
      (h : History) :
  logged prefix step h =
  (tt, snd (step h) ++ match fst (step h) with
                       | Some e => [Log Error_ (prefix ++ Error e)]
                       | None => []
                       end).
Proof.
  unfold logged. rewrite HistFacts.bind_run.
  destruct (fst (step h)); reflexivity.
Qed.

(** C1. Once the connection is established, [Run] goes through every step
    of the teardown, in the fixed order: VM teardown then tag removal for
    the general tag, the same for the bootstrap tag, template removal,
    affinity-group removal.  Its events are those of the six steps, each
    started where the previous one ended and each with its error only
    logged; the listing calls that open the steps occur in this order (the
    template listing when the flag is set).  This holds for every engine,
    hence whatever the earlier steps returned: a failed [removeVMs] does
    not keep [removeTag] from being attempted. *)
Theorem Run_attempts_every_step
        (eng : Engine) (md : ClusterMetadata) (h : History) :
  onNewConnection eng h = None ->
  let tagVMs := InfraID md in
  let tagVMbootstrap := (InfraID md ++ "-bootstrap")%string in
  let h0 := h ++ [Call NewConnection] in
  let s1 := snd (logged "failed to remove VMs: " (removeVMs eng tagVMs) h0) in
  let s2 := snd (logged "failed to remove tag: " (removeTag eng tagVMs)
                   (h0 ++ s1)) in
  let s3 := snd (logged "failed to remove VMs: " (removeVMs eng tagVMbootstrap)
                   (h0 ++ s1 ++ s2)) in
  let s4 := snd (logged "failed to remove tag: " (removeTag eng tagVMbootstrap)
                   (h0 ++ s1 ++ s2 ++ s3)) in
  let s5 := snd (logged "Failed to remove template: " (removeTemplate eng md)
                   (h0 ++ s1 ++ s2 ++ s3 ++ s4)) in
  let s6 := snd (logged "Failed to removing Affinity Groups: "
                   (removeAffinityGroups eng md)
                   (h0 ++ s1 ++ s2 ++ s3 ++ s4 ++ s5)) in
  snd (Run eng md h)
    = [Call NewConnection] ++ s1 ++ s2 ++ s3 ++ s4 ++ s5 ++ s6 ++ [Call Close]
  /\ discoveries (snd (Run eng md h)) =
      [VmsSearch ("tag=" ++ InfraID md); TagsList;
       VmsSearch ("tag=" ++ InfraID md ++ "-bootstrap"); TagsList]
      ++ (if RemoveTemplate (Ovirt md)
          then [TemplatesSearch ("name=" ++ InfraID md ++ "-rhcos")]
          else [])
      ++ [AffinityGroupsList (ClusterID (Ovirt md))].
Proof.
  intros Hcon tagVMs tagVMbootstrap h0 s1 s2 s3 s4 s5 s6.
  assert (Hev : snd (Run eng md h)
                = [Call NewConnection] ++ s1 ++ s2 ++ s3 ++ s4 ++ s5 ++ s6
                    ++ [Call Close]).
  { unfold Run. rewrite HistFacts.bind_snd, HistFacts.emit_run.
    cbn [fst snd]. rewrite Hcon. cbv zeta. cbn [Hist.forEach].
    repeat (rewrite ?HistFacts.bind_snd, ?HistFacts.emit_run,
              ?HistFacts.ret_run; cbn [fst snd]).
    subst s1 s2 s3 s4 s5 s6 h0 tagVMs tagVMbootstrap.
    rewrite ?app_nil_r, <- ?app_assoc. reflexivity. }
  split; [exact Hev|].
  rewrite Hev. subst s1 s2 s3 s4 s5 s6.
  rewrite !discoveries_app, !discoveries_logged, !discoveries_removeVMs,
    !discoveries_removeTag, discoveries_removeTemplate,
    discoveries_removeAffinityGroups.
  destruct (RemoveTemplate (Ovirt md)); reflexivity.
Qed.

Lemma Run_attempts_every_step_witness :
  onNewConnection Scenario.searchFails [] = None /\
  discoveries (snd (Run Scenario.searchFails Scenario.md [])) =
    [VmsSearch "tag=abc123"; TagsList;
     VmsSearch "tag=abc123-bootstrap"; TagsList;
     TemplatesSearch "name=abc123-rhcos"; AffinityGroupsList "cluster-1"].
Proof.
  split; [reflexivity|].
  apply (proj2 (Run_attempts_every_step Scenario.searchFails Scenario.md []
                  eq_refl)).
Defined.

(** The end-to-end scenario of the specification: the calls of a run in
    which everything succeeds. *)
Example Run_end_to_end :
  Run Scenario.engine Scenario.md [] =
  (None, None,
   [Call NewConnection; Log Debug "Searching VMs by tag=abc123";
    Call (VmsSearch "tag=abc123"); Log Debug "Found 2 VMs";
    Call (VmStop "vm-1"); Call (VmStop "vm-2");
    Log Info "Stopping VM abc123-master-0";
    Log Info "Stopping VM abc123-worker-0";
    Call (WaitForVM "vm-1" VMSTATUS_DOWN 600000000000);
    Call (WaitForVM "vm-2" VMSTATUS_DOWN 600000000000);
    Log Info "VM abc123-master-0 powered off";
    Log Info "VM abc123-worker-0 powered off";
    Call (VmRemove "vm-1"); Call (VmRemove "vm-2");
    Log Info "Removing VM abc123-master-0";
    Log Info "Removing VM abc123-worker-0";
    Call TagsList; Log Info "Removing tag abc123"; Call (TagRemove "tag-1");
    Log Debug "Searching VMs by tag=abc123-bootstrap";
    Call (VmsSearch "tag=abc123-bootstrap"); Log Debug "Found 1 VMs";
    Call (VmStop "vm-3"); Log Info "Stopping VM abc123-bootstrap";
    Call (WaitForVM "vm-3" VMSTATUS_DOWN 600000000000);
    Log Info "VM abc123-bootstrap powered off";
    Call (VmRemove "vm-3"); Log Info "Removing VM abc123-bootstrap";
    Call TagsList; Log Info "Removing tag abc123-bootstrap";
    Call (TagRemove "tag-2");
    Call (TemplatesSearch "name=abc123-rhcos");
    Log Info "Removing Template abc123-rhcos"; Call (TemplateRemove "tmp-1");
    Call (AffinityGroupsList "cluster-1");
    Log Info "Removing AffinityGroup abc123-ag1";
    Call (AffinityGroupRemove "cluster-1" "ag-1");
    Call Close]).
Proof. vm_compute. reflexivity. Qed.

(** A run in which the VM searches fail and the first template cannot be
    removed: the errors are logged and the later steps are made. *)
Example Run_with_failures :
  List.filter (fun e => match e with Log Error_ _ => true | _ => false end)
    (snd (Run Scenario.searchFails Scenario.md []))
  = [Log Error_ "failed to remove VMs: search failed";
     Log Error_ "failed to remove VMs: search failed"]
  /\ fst (Run Scenario.searchFails Scenario.md []) = (None, None).
Proof. vm_compute. split; reflexivity. Qed.

(** C3. [Run] returns a non-nil error exactly when the connection to the
    engine cannot be established; no outcome of a step changes that. *)
Theorem Run_error_iff_connection
        (eng : Engine) (md : ClusterMetadata) (h : History) :
  snd (fst (Run eng md h)) <> None <-> onNewConnection eng h <> None.
Proof.
  unfold Run. rewrite HistFacts.bind_fst, HistFacts.emit_run. cbn [fst snd].
  destruct (onNewConnection eng h) as [e|].
  - cbn. split; intros _; discriminate.
  - rewrite !HistFacts.bind_fst. cbn. tauto.
Qed.

(** *** The group teardown driver *)

(** C2. When the search answers with [vms], [removeVMs] returns nil after
    a fan-out in which the calls made are a merge of the units of all the
    VMs, each unit being stop, wait, remove in this order: every VM gets
    all three calls whatever the engine answered to any of them, and every
    goroutine has finished when the fan-out returns. *)
Theorem removeVMs_runs_every_unit
        (eng : Engine) (tag : string) (h : History) (vms : list Vm) :
  onVmsSearch eng (h ++ [Log Debug ("Searching VMs by tag=" ++ tag)])
              ("tag=" ++ tag) = Ok vms ->
  exists evs,
    removeVMs eng tag h =
      (None,
       [Log Debug ("Searching VMs by tag=" ++ tag);
        Call (VmsSearch ("tag=" ++ tag));
        Log Debug ("Found " ++ itoa (Z.of_nat (length vms)) ++ " VMs")] ++ evs)
    /\ Interleaving (map unitCalls vms) (callsOf evs)
    /\ length (callsOf evs) = 3 * length vms
    /\ forall h', fst (fanOut eng vms h') = map (fun vm => (vm, PcDone)) vms.
Proof.
  intros Hsearch. unfold removeVMs, logf. cbv zeta.
  rewrite !HistFacts.bind_run. cbn [Hist.emit fst snd].
  change ("Searching VMs by " ++ "tag=" ++ tag)%string
    with ("Searching VMs by tag=" ++ tag)%string.
  rewrite Hsearch. hist_simpl. rewrite app_nil_r.
  eexists. split; [reflexivity|].
  match goal with
  | |- context [fanOut eng vms ?h0] =>
      destruct (fanOut_merge eng vms h0) as [Hm _]
  end.
  split; [exact Hm|]. split.
  - rewrite (Interleaving_length _ _ Hm).
    clear. induction vms as [|vm vms IH]; simpl in *; lia.
  - intros h'. apply fanOut_merge.
Qed.

Lemma removeVMs_runs_every_unit_witness :
  exists evs,
    removeVMs Scenario.stubborn "abc123" [] =
      (None,
       [Log Debug "Searching VMs by tag=abc123";
        Call (VmsSearch "tag=abc123");
        Log Debug "Found 2 VMs"] ++ evs)
    /\ Interleaving (map unitCalls [Scenario.vm1; Scenario.vm2]) (callsOf evs)
    /\ length (callsOf evs) = 6
    /\ forall h', fst (fanOut Scenario.stubborn [Scenario.vm1; Scenario.vm2] h')
                 = [(Scenario.vm1, PcDone); (Scenario.vm2, PcDone)].
Proof.
  apply (removeVMs_runs_every_unit Scenario.stubborn "abc123" []
           [Scenario.vm1; Scenario.vm2]).
  reflexivity.
Defined.

(** C8. When the search succeeds with no VM, [removeVMs] makes no stop,
    wait or remove call and returns nil. *)
Theorem removeVMs_empty_is_noop (eng : Engine) (tag : string) (h : History) :
  onVmsSearch eng (h ++ [Log Debug ("Searching VMs by tag=" ++ tag)])
              ("tag=" ++ tag) = Ok [] ->
  removeVMs eng tag h =
    (None,
     [Log Debug ("Searching VMs by tag=" ++ tag);
      Call (VmsSearch ("tag=" ++ tag));
      Log Debug "Found 0 VMs"]).
Proof.
  intros Hsearch. unfold removeVMs, logf. cbv zeta.
  rewrite !HistFacts.bind_run. cbn [Hist.emit fst snd].
  change ("Searching VMs by " ++ "tag=" ++ tag)%string
    with ("Searching VMs by tag=" ++ tag)%string.
  rewrite Hsearch. hist_simpl. rewrite fanOut_nil. reflexivity.
Qed.

Lemma removeVMs_empty_is_noop_witness :
  onVmsSearch Scenario.noVms [Log Debug "Searching VMs by tag=abc123"]
              "tag=abc123" = Ok [] /\
  removeVMs Scenario.noVms "abc123" [] =
    (None,
     [Log Debug "Searching VMs by tag=abc123";
      Call (VmsSearch "tag=abc123");
      Log Debug "Found 0 VMs"]).
Proof.
  split; [reflexivity|].
  apply (removeVMs_empty_is_noop Scenario.noVms "abc123" []). reflexivity.
Defined.

(** *** Loops that return at the first failure *)

Section UntilFailure.
Context {A : Type}.
Variable sel : A -> bool.
Variable logs : A -> list Event.
Variable req : A -> Request.
Variable ans : History -> A -> option error.
Variable body : A -> Hist.M Event (option error).

(** The body skips the elements not selected; for a selected one it logs,
    makes the call and returns what the call answered. *)
Hypothesis body_run : forall x h,
  body x h = if sel x
             then (ans (h ++ logs x) x, logs x ++ [Call (req x)])
             else (None, []).

Local Abbreviation unitEv := (fun x : A => logs x ++ [Call (req x)]).

(** The loop handles the selected elements in order.  Those it handles are
    [done]: each of them but the last was answered nil, the answer to the
    last one is what the loop returns, and when that is nil nothing is
    left. *)
Lemma forRange_until_failure (xs : list A) (h : History) :
  exists done rest,
    List.filter sel xs = done ++ rest
    /\ snd (Hist.forRange xs body h) = flat_map unitEv done
    /\ (done = [] -> fst (Hist.forRange xs body h) = None)
    /\ (fst (Hist.forRange xs body h) = None -> rest = [])
    /\ (forall pre t post,
          done = pre ++ t :: post ->
          ans (h ++ flat_map unitEv pre ++ logs t) t
          = match post with
            | [] => fst (Hist.forRange xs body h)
            | _ :: _ => None
            end).
Proof.
  revert h. induction xs as [|x xs IH]; intros h.
  - exists [], []. cbn. split; [reflexivity|]. split; [reflexivity|].
    split; [reflexivity|]. split; [reflexivity|].
    intros [|? ?] ? ? [=].
  - cbn [Hist.forRange List.filter]. rewrite HistFacts.bind_run, body_run.
    destruct (sel x) eqn:Hsel; cbn [fst snd].
    + destruct (ans (h ++ logs x) x) as [e|] eqn:Ha.
      * exists [x], (List.filter sel xs). cbn [flat_map Hist.ret fst snd].
        split; [reflexivity|]. split; [reflexivity|].
        split; [discriminate|]. split; [discriminate|].
        intros [|p pre] t post Hsplit.
        -- injection Hsplit as <- <-. cbn [flat_map app]. exact Ha.
        -- injection Hsplit as _ Hbad. destruct pre; discriminate.
      * destruct (IH (h ++ logs x ++ [Call (req x)]))
          as (done & rest & Hf & Hev & Hd & Hnil & Hans).
        exists (x :: done), rest. rewrite Hf, Hev.
        split; [reflexivity|]. split; [reflexivity|].
        split; [discriminate|]. split; [exact Hnil|].
        intros [|p pre] t post Hsplit.
        -- injection Hsplit as <- <-. cbn [flat_map app]. rewrite Ha.
           destruct done; [symmetry; now apply Hd|reflexivity].
        -- injection Hsplit as <- Hsplit.
           rewrite <- (Hans pre t post Hsplit). f_equal.
           cbn [flat_map]. now rewrite <- !app_assoc.
    + rewrite app_nil_r. cbn [app]. exact (IH h).
Qed.

(** When the loop returns an error it is the answer to the last call it
    made. *)
Lemma forRange_failure_is_last (xs : list A) (h : History)
      (done : list A) (e : error) :
  snd (Hist.forRange xs body h) = flat_map unitEv done ->
  (done = [] -> fst (Hist.forRange xs body h) = None) ->
  (forall pre t post,
      done = pre ++ t :: post ->
      ans (h ++ flat_map unitEv pre ++ logs t) t
      = match post with
        | [] => fst (Hist.forRange xs body h)
        | _ :: _ => None
        end) ->
  fst (Hist.forRange xs body h) = Some e ->
  exists done' t,
    done = done' ++ [t]
    /\ snd (Hist.forRange xs body h)
       = (flat_map unitEv done' ++ logs t) ++ [Call (req t)]
    /\ ans (h ++ flat_map unitEv done' ++ logs t) t = Some e.
Proof.
  intros Hev Hd Hans He.
  destruct (exists_last (l := done)) as (done' & t & ->).
  { intros ->. rewrite (Hd eq_refl) in He. discriminate. }
  exists done', t. split; [reflexivity|]. split.
  - rewrite Hev, flat_map_app. cbn [flat_map].
    now rewrite app_nil_r, <- !app_assoc.
  - rewrite (Hans done' t [] eq_refl). exact He.
Qed.
End UntilFailure.

Lemma callsOf_templateRemovalEvents (ts : list Template) :
  callsOf (flat_map templateRemovalEvents ts) = templateRemovals ts.
Proof.
  induction ts as [|t ts IH]; [reflexivity|]. cbn. now rewrite IH.
Qed.

(** *** Template removal *)

(** C5, as the code has it.  With the flag unset [removeTemplate] makes no
    call and returns nil.  With the flag set and a successful search, the
    templates are removed in the order of the result, up to [done]: every
    removal but the last one made was answered nil, the answer to the last
    one is what [removeTemplate] returns, and nil is returned only when no
    template is left.  So the loop stops at the first removal that fails,
    returns its error and does not ask for the later matches. *)
Theorem removeTemplate_gated_until_failure
        (eng : Engine) (md : ClusterMetadata) (h : History) :
  (RemoveTemplate (Ovirt md) = false -> removeTemplate eng md h = (None, []))
  /\ (forall result,
        RemoveTemplate (Ovirt md) = true ->
        onTemplatesSearch eng h ("name=" ++ InfraID md ++ "-rhcos")
          = Ok (Some result) ->
        exists done rest,
          result = done ++ rest
          /\ callsOf (snd (removeTemplate eng md h))
             = TemplatesSearch ("name=" ++ InfraID md ++ "-rhcos")
                 :: templateRemovals done
          /\ (fst (removeTemplate eng md h) = None -> rest = [])
          /\ (forall e, fst (removeTemplate eng md h) = Some e ->
                exists evs tmp done',
                  done = done' ++ [tmp]
                  /\ snd (removeTemplate eng md h)
                     = evs ++ [Call (TemplateRemove (tmp_MustId tmp))]
                  /\ onTemplateRemove eng (h ++ evs) (tmp_MustId tmp)
                     = Some e)
          /\ snd (removeTemplate eng md h)
             = Call (TemplatesSearch ("name=" ++ InfraID md ++ "-rhcos"))
                 :: flat_map templateRemovalEvents done
          /\ (done = [] -> fst (removeTemplate eng md h) = None)
          /\ (forall pre tmp post,
                done = pre ++ tmp :: post ->
                onTemplateRemove eng
                  (h ++ Call (TemplatesSearch
                                ("name=" ++ InfraID md ++ "-rhcos"))
                     :: flat_map templateRemovalEvents pre
                     ++ [Log Info ("Removing Template " ++ tmp_MustName tmp)])
                  (tmp_MustId tmp)
                = match post with
                  | [] => fst (removeTemplate eng md h)
                  | _ :: _ => None
                  end)).
Proof.
  unfold removeTemplate. split.
  - intros ->. reflexivity.
  - intros result -> Hsearch. cbv zeta. rewrite HistFacts.bind_run.
    cbn [Hist.emit fst snd]. rewrite Hsearch.
    set (term := ("name=" ++ InfraID md ++ "-rhcos")%string).
    set (body := fun tmp : Template =>
                   Hist.bind
                     (logf Info ("Removing Template " ++ tmp_MustName tmp))
                     (fun _ =>
                        Hist.emit (Call (TemplateRemove (tmp_MustId tmp)))
                          (fun h => onTemplateRemove eng h (tmp_MustId tmp)))).
    assert (Hbody : forall x h0,
               body x h0
               = if (fun _ : Template => true) x
                 then (onTemplateRemove eng
                         (h0 ++ [Log Info ("Removing Template "
                                            ++ tmp_MustName x)])
                         (tmp_MustId x),
                       [Log Info ("Removing Template " ++ tmp_MustName x)]
                         ++ [Call (TemplateRemove (tmp_MustId x))])
                 else (None, [])).
    { intros x h0. unfold body.
      rewrite HistFacts.bind_run, logf_run, HistFacts.emit_run. reflexivity. }
    set (h0 := h ++ [Call (TemplatesSearch term)]).
    set (sel := fun _ : Template => true) in *.
    set (logs := fun x : Template =>
                   [Log Info ("Removing Template " ++ tmp_MustName x)]) in *.
    set (req := fun x : Template => TemplateRemove (tmp_MustId x)).
    set (ans := fun (h' : History) (x : Template) =>
                  onTemplateRemove eng h' (tmp_MustId x)).
    destruct (forRange_until_failure sel logs req ans body Hbody result h0)
      as (done & rest & Hf & Hev & Hd & Hnil & Hans).
    assert (Hall : List.filter sel result = result).
    { clear. induction result as [|x xs IH]; cbn; [reflexivity|now rewrite IH]. }
    rewrite Hall in Hf.
    change (flat_map _ done) with (flat_map templateRemovalEvents done) in Hev.
    exists done, rest. split; [exact Hf|]. split; [|split; [exact Hnil|]].
    { cbn [app callsOf]. f_equal. rewrite Hev.
      apply callsOf_templateRemovalEvents. }
    split; [|split; [|split; [exact Hd|]]].
    + intros e He.
      destruct (forRange_failure_is_last logs req ans body result h0 done e
                  Hev Hd Hans He) as (done' & t & Hlast & Hevl & Hansl).
      exists (Call (TemplatesSearch term)
                :: flat_map templateRemovalEvents done'
                ++ [Log Info ("Removing Template " ++ tmp_MustName t)]), t, done'.
      split; [exact Hlast|]. split.
      * cbn [app]. f_equal. exact Hevl.
      * rewrite <- Hansl. f_equal. unfold h0. now rewrite <- app_assoc.
    + cbn [app]. f_equal. exact Hev.
    + intros pre tmp post Hsplit.
      rewrite <- (Hans pre tmp post Hsplit). f_equal.
      unfold h0. now rewrite <- app_assoc.
Qed.

Lemma removeTemplate_gated_until_failure_witness :
  removeTemplate Scenario.templateFails Scenario.mdKeepTemplate [] = (None, [])
  /\ exists done rest,
       [Scenario.tmp1; Scenario.tmp2] = done ++ rest
       /\ callsOf (snd (removeTemplate Scenario.templateFails Scenario.md []))
          = TemplatesSearch "name=abc123-rhcos" :: templateRemovals done.
Proof.
  split.
  - apply (proj1 (removeTemplate_gated_until_failure
                    Scenario.templateFails Scenario.mdKeepTemplate [])).
    reflexivity.
  - destruct (proj2 (removeTemplate_gated_until_failure
                       Scenario.templateFails Scenario.md [])
                    [Scenario.tmp1; Scenario.tmp2] eq_refl eq_refl)
      as (done & rest & Hres & Hcalls & _).
    exists done, rest. split; [exact Hres|exact Hcalls].
Defined.

(** Two templates match and the removal of the first one fails: its error
    is returned and the second one is not asked for. *)
Example removeTemplate_first_failure :
  removeTemplate Scenario.templateFails Scenario.md []
  = (Some (ApiError "in use"),
     [Call (TemplatesSearch "name=abc123-rhcos");
      Log Info "Removing Template abc123-rhcos";
      Call (TemplateRemove "tmp-1")]).
Proof. reflexivity. Qed.

(** C5 as stated fails: with the flag set and a successful search, a
    template of the result is not removed when the removal of an earlier
    one failed. *)
Lemma removeTemplate_not_every_match_removed :
  ~ (forall (eng : Engine) (md : ClusterMetadata) (h : History)
            (result : list Template) (tmp : Template),
        RemoveTemplate (Ovirt md) = true ->
        onTemplatesSearch eng h ("name=" ++ InfraID md ++ "-rhcos")
          = Ok (Some result) ->
        In tmp result ->
        In (TemplateRemove (tmp_MustId tmp))
           (callsOf (snd (removeTemplate eng md h)))).
Proof.
  intros H.
  specialize (H Scenario.templateFails Scenario.md []
                [Scenario.tmp1; Scenario.tmp2] Scenario.tmp2
                eq_refl eq_refl (or_intror (or_introl eq_refl))).
  cbn in H. decompose [or] H; discriminate || contradiction.
Qed.

End OvirtFacts.

(** ** The storage-gateway service *)

Module SgwFacts.
Import Sgw.

Lemma slept_app (a b : History) : slept (a ++ b) = (slept a + slept b)%Z.
Proof.
  induction a as [|[| | |] a IH]; cbn [app slept]; rewrite ?IH; lia.
Qed.



Lemma now_run (h : History) : now h = (slept h, []).
Proof. reflexivity. Qed.



(** After [m] waits of three more seconds each time, less than five
    minutes have been slept only if [m] is at most 13. *)
Lemma waits_before_deadline (elapsed : Z) (m : nat) :
  (2 * elapsed = 3 * Second * (Z.of_nat m * (Z.of_nat m + 1)))%Z ->
  (elapsed < 5 * Minute)%Z ->
  m <= 13.
Proof.
  unfold Minute, Second. intros Hinv Hlt.
  destruct (le_gt_dec m 13) as [Hle|Hgt]; [exact Hle|exfalso].
  assert (H14 : (14 <= Z.of_nat m)%Z) by lia.
  assert (H210 : (210 <= Z.of_nat m * (Z.of_nat m + 1))%Z) by nia.
  lia.
Qed.

Section Service.
Variable client : Client.
Variable NeedRetry : error -> bool.
Variable IsExpectedErrors : error -> list string -> bool.
Variable jsonpath_Get : string -> Obj -> result Obj.

Local Abbreviation func1 :=
  (DescribeCloudStorageGatewayGateway_func1 client NeedRetry).

(** One run of the retried closure. *)
Lemma func1_run (action : string) (request : gmap string Value)
      (c : Captured) (h : History) :
  func1 action request c h =
  let r := onDoRequest client h action request in
  let call := DoRequest action "POST" "2018-05-11" "AK" request true in
  match snd r with
  | Some err =>
      if NeedRetry err then
        ((Some (RetryableError err), (fst r, Some err, S (snd c))),
         [call; Sleep (linearWait (3 * Second) (3 * Second) (snd c - 1))])
      else ((Some (NonRetryableError err), (fst r, Some err, snd c)), [call])
  | None => ((None, (fst r, None, snd c)), [call])
  end.
Proof.
  unfold DescribeCloudStorageGatewayGateway_func1. cbv zeta.
  rewrite HistFacts.bind_run, HistFacts.emit_run. cbn [fst snd].
  destruct (snd (onDoRequest client h action request)) as [err|];
    [|reflexivity].
  destruct (NeedRetry err); [|reflexivity].
  unfold incrementalWait. hist_simpl. reflexivity.
Qed.

(** The loop, entered for the attempt that follows [m] waits: the waits
    made from here on continue the linear backoff, at most 14 waits are
    ever made, every attempt starts before the deadline, and 14 attempts
    are enough fuel. *)
Lemma RetryLoop_backoff (action : string) (request : gmap string Value)
      (fuel : nat) (start : Z) (h : History) (c : Captured) (m : nat) :
  snd c = S m ->
  (2 * (slept h - start)
   = 3 * Second * (Z.of_nat m * (Z.of_nat m + 1)))%Z ->
  (slept h - start < 5 * Minute)%Z ->
  let r := RetryLoop fuel (start + 5 * Minute) (func1 action request) c h in
  exists n,
    sleepsOf (snd r) = map (linearWait (3 * Second) (3 * Second)) (seq m n)
    /\ m + n <= 14
    /\ (14 - m <= fuel -> fst r <> None)
    /\ (forall pre e post,
          snd r = pre ++ e :: post -> isAttempt e = true ->
          (slept h + slept pre - start < 5 * Minute)%Z).
Proof.
  revert h c m. induction fuel as [|fuel IH]; intros h c m Hc Hinv Hlt r;
    pose proof (waits_before_deadline _ _ Hinv Hlt) as Hm.
  - exists 0. subst r. cbn [RetryLoop Hist.ret fst snd sleepsOf seq map].
    split; [reflexivity|]. split; [lia|]. split; [lia|].
    intros [|? ?] ? ? [=].
  - subst r. cbn [RetryLoop]. rewrite HistFacts.bind_run, func1_run.
    cbv zeta. rewrite Hc. replace (S m - 1) with m by lia.
    set (call := DoRequest action "POST" "2018-05-11" "AK" request true).
    destruct (snd (onDoRequest client h action request)) as [err|];
      [destruct (NeedRetry err)|].
    + (* retryable *)
      cbn [fst snd]. rewrite HistFacts.bind_run, !now_run.
      cbn [fst snd app]. rewrite !app_nil_r.
      set (d := linearWait (3 * Second) (3 * Second) m).
      assert (Hd : slept (h ++ [call; Sleep d]) = (slept h + d)%Z).
      { rewrite slept_app. cbn. lia. }
      rewrite Hd. subst call.
      destruct (start + 5 * Minute <=? slept h + d)%Z eqn:Hdead.
      * exists 1. cbn [fst snd Hist.ret app sleepsOf seq map].
        split; [reflexivity|]. split; [lia|]. split; [discriminate|].
        intros [|p0 [|p1 pre]] e post [= <- <-]; cbn.
        -- intros _. lia.
        -- discriminate.
        -- intros _. destruct pre; discriminate.
      * apply Z.leb_gt in Hdead.
        destruct (IH (h ++ [DoRequest action "POST" "2018-05-11" "AK"
                                        request true; Sleep d])
                     (fst (onDoRequest client h action request),
                      Some err, S (S m)) (S m))
          as (n & Hsl & Hn & Hfuel & Hatt).
        { reflexivity. }
        { rewrite Hd. unfold d, linearWait. nia. }
        { rewrite Hd. lia. }
        exists (S n). cbn [fst snd sleepsOf seq map]. rewrite Hsl.
        split; [reflexivity|]. split; [lia|]. split.
        -- intros Hf. apply Hfuel. lia.
        -- intros [|p0 [|p1 pre]] e post; cbn [app].
           ++ intros [= <- _] _. cbn. lia.
           ++ intros [= _ <- _]. discriminate.
           ++ intros [= <- <- Hrest] He. cbn [slept].
              specialize (Hatt pre e post Hrest He). rewrite Hd in Hatt. lia.
    + (* terminal error *)
      exists 0. cbn. split; [reflexivity|]. split; [lia|].
      split; [discriminate|].
      intros [|p0 pre] e post; cbn.
      -- intros _ _. lia.
      -- intros [= _ Hp]. destruct pre; discriminate.
    + (* success *)
      exists 0. cbn. split; [reflexivity|]. split; [lia|].
      split; [discriminate|].
      intros [|p0 pre] e post; cbn.
      -- intros _ _. lia.
      -- intros [= _ Hp]. destruct pre; discriminate.
Qed.

Local Abbreviation describe :=
  (DescribeCloudStorageGatewayGateway client NeedRetry IsExpectedErrors
     jsonpath_Get).

Local Abbreviation gatewayRequest id :=
  (<["GatewayId" := VString id]> (∅ : gmap string Value)).

(** What [DescribeCloudStorageGatewayGateway] emits once it has a
    connection: the events of the retry loop, then at most the debug
    record. *)
Lemma describe_events (fuel : nat) (id : string) (h : History) :
  onNewHcsSgwClient client h = None ->
  let h1 := h ++ [NewHcsSgwClient] in
  let r := RetryLoop fuel (slept h1 + 5 * Minute)
             (func1 "DescribeGateway" (gatewayRequest id))
             (None, None, 1) h1 in
  exists tail,
    snd (describe fuel id h) = NewHcsSgwClient :: snd r ++ tail
    /\ sleepsOf tail = []
    /\ List.filter isAttempt tail = []
    /\ (fst r <> None -> fst (describe fuel id h) <> None).
Proof.
  intros Hcon h1 r. unfold DescribeCloudStorageGatewayGateway.
  rewrite HistFacts.bind_run, HistFacts.emit_run. cbn [fst snd].
  rewrite Hcon. cbv zeta. unfold Retry.
  rewrite !HistFacts.bind_run, !now_run. cbn [fst snd app].
  rewrite !app_nil_r. fold h1. fold r.
  destruct (fst r) as [[err [[response e'] k]]|].
  - rewrite HistFacts.bind_run, HistFacts.emit_run. cbn [fst snd].
    eexists. split; [reflexivity|].
    destruct err as [err|].
    + destruct (IsExpectedErrors err _); cbn; repeat split; discriminate.
    + destruct (String.eqb _ _); [cbn; repeat split; discriminate|].
      destruct (jsonpath_Get _ _); cbn; repeat split; discriminate.
  - exists []. cbn. repeat split. intros H; now elim H.
Qed.

(** With fourteen attempts of fuel the function always returns. *)
Lemma describe_returns (fuel : nat) (id : string) (h : History) :
  14 <= fuel -> fst (describe fuel id h) <> None.
Proof.
  intros Hfuel.
  destruct (onNewHcsSgwClient client h) as [e|] eqn:Hcon.
  - unfold DescribeCloudStorageGatewayGateway.
    rewrite HistFacts.bind_run, HistFacts.emit_run. cbn [fst snd].
    rewrite Hcon. discriminate.
  - destruct (describe_events fuel id h Hcon) as (tail & _ & _ & _ & Hret).
    apply Hret.
    destruct (RetryLoop_backoff "DescribeGateway" (gatewayRequest id) fuel
                (slept (h ++ [NewHcsSgwClient])) (h ++ [NewHcsSgwClient])
                (None, None, 1) 0) as (n & _ & _ & Hf & _);
      [reflexivity|cbn; lia|rewrite Z.sub_diag; reflexivity|].
    apply Hf. lia.
Qed.


Lemma DescribeGateway_returns (fuel : nat) (id : string) (h : History) :
  14 <= fuel ->
  fst (DescribeGateway client NeedRetry IsExpectedErrors jsonpath_Get
         fuel id h) <> None.
Proof. exact (describe_returns fuel id h). Qed.

(** C9. [DescribeGateway] and [DescribeCloudStorageGatewayGateway] return
    the same object and error and emit the same events, for every gateway
    id, every client behaviour and every amount of fuel. *)
Theorem DescribeGateway_equiv (fuel : nat) (id : string) (h : History) :
  DescribeGateway client NeedRetry IsExpectedErrors jsonpath_Get fuel id h
  = DescribeCloudStorageGatewayGateway client NeedRetry IsExpectedErrors
      jsonpath_Get fuel id h.
Proof.
  unfold DescribeGateway, DescribeCloudStorageGatewayGateway.
  unfold DescribeGateway_func1, DescribeCloudStorageGatewayGateway_func1.
  reflexivity.
Qed.

(** C6. When the first attempt of [DescribeGateway] fails with an error
    that is not retryable, the retry wrapper returns that error after this
    one attempt, without any wait, and the function returns its wrapping:
    the call makes one request and sleeps never. *)
Theorem DescribeGateway_terminal_error_at_once
        (fuel : nat) (id : string) (h : History) (resp : Obj) (err : error) :
  onNewHcsSgwClient client h = None ->
  onDoRequest client (h ++ [NewHcsSgwClient]) "DescribeGateway"
              (gatewayRequest id) = (resp, Some err) ->
  NeedRetry err = false ->
  let request := gatewayRequest id in
  let call := DoRequest "DescribeGateway" "POST" "2018-05-11" "AK" request true in
  Retry (S fuel) (5 * Minute)
        (DescribeGateway_func1 client NeedRetry "DescribeGateway" request)
        (None, None, 1) (h ++ [NewHcsSgwClient])
    = (Some (Some err, (resp, Some err, 1)), [call])
  /\ DescribeGateway client NeedRetry IsExpectedErrors jsonpath_Get
       (S fuel) id h
     = (Some (None,
              Some (if IsExpectedErrors err ["GatewayNotExist"]
                    then WrapErrorf
                           (ErrorNotFoundMessage "CloudStorageGateway:Gateway" id)
                           NotFoundMsg
                           [ArgSource ProviderERROR;
                            ArgString (Sprint (index resp "RequestId"))]
                    else WrapErrorf err DefaultErrorMsg
                           [ArgString id; ArgString "DescribeGateway";
                            ArgSource AlibabaCloudSdkGoERROR])),
        [NewHcsSgwClient; call; addDebug "DescribeGateway" resp request]).
Proof.
  intros Hcon Hreq Hterm request call. subst call request.
  assert (HR : Retry (S fuel) (5 * Minute)
                 (DescribeGateway_func1 client NeedRetry "DescribeGateway"
                    (gatewayRequest id))
                 (None, None, 1) (h ++ [NewHcsSgwClient])
               = (Some (Some err, (resp, Some err, 1)),
                  [DoRequest "DescribeGateway" "POST" "2018-05-11" "AK"
                     (gatewayRequest id) true])).
  { unfold Retry. rewrite HistFacts.bind_run, now_run. cbn [fst snd app].
    rewrite app_nil_r. cbn [RetryLoop].
    rewrite HistFacts.bind_run.
    change (DescribeGateway_func1 client NeedRetry)
      with (DescribeCloudStorageGatewayGateway_func1 client NeedRetry).
    rewrite func1_run. cbv zeta. rewrite Hreq. cbn [fst snd].
    rewrite Hterm. reflexivity. }
  split; [exact HR|].
  unfold DescribeGateway.
  rewrite HistFacts.bind_run, HistFacts.emit_run. cbn [fst snd].
  rewrite Hcon. cbv zeta.
  rewrite HistFacts.bind_run, HR. cbn [fst snd].
  rewrite HistFacts.bind_run, HistFacts.emit_run. cbn [fst snd].
  destruct (IsExpectedErrors err ["GatewayNotExist"]); reflexivity.
Qed.
End Service.

Lemma DescribeGateway_terminal_error_at_once_witness :
  Retry 1 (5 * Minute)
        (DescribeGateway_func1
           (SgwScenario.scripted [] (None, Some SgwScenario.forbidden))
           SgwScenario.NeedRetry "DescribeGateway"
           (<["GatewayId" := VString "gw-1"]> ∅))
        (None, None, 1) [NewHcsSgwClient]
    = (Some (Some SgwScenario.forbidden,
             (None, Some SgwScenario.forbidden, 1)),
       [DoRequest "DescribeGateway" "POST" "2018-05-11" "AK"
          (<["GatewayId" := VString "gw-1"]> ∅) true])
  /\ DescribeGateway
       (SgwScenario.scripted [] (None, Some SgwScenario.forbidden))
       SgwScenario.NeedRetry SgwScenario.IsExpectedErrors
       SgwScenario.jsonpath_Get 1 "gw-1" []
     = (Some (None,
              Some (WrapErrorf SgwScenario.forbidden DefaultErrorMsg
                      [ArgString "gw-1"; ArgString "DescribeGateway";
                       ArgSource AlibabaCloudSdkGoERROR])),
        [NewHcsSgwClient;
         DoRequest "DescribeGateway" "POST" "2018-05-11" "AK"
           (<["GatewayId" := VString "gw-1"]> ∅) true;
         addDebug "DescribeGateway" None
           (<["GatewayId" := VString "gw-1"]> ∅)]).
Proof.
  apply (DescribeGateway_terminal_error_at_once
           (SgwScenario.scripted [] (None, Some SgwScenario.forbidden))
           SgwScenario.NeedRetry SgwScenario.IsExpectedErrors
           SgwScenario.jsonpath_Get 0 "gw-1" [] None SgwScenario.forbidden);
    reflexivity.
Defined.

(** The scenario of the specification: two transient errors, then success.
    The call succeeds after exactly two retries, having waited 3s and 6s. *)
Example two_retries_then_success :
  let client :=
    SgwScenario.scripted
      [(None, Some SgwScenario.throttled); (None, Some SgwScenario.throttled);
       (SgwScenario.gateway, None)]
      (None, Some SgwScenario.forbidden) in
  let r := DescribeGateway client SgwScenario.NeedRetry
             SgwScenario.IsExpectedErrors SgwScenario.jsonpath_Get 14 "gw-1" [] in
  fst r = Some (SgwScenario.gateway, None)
  /\ attempts (snd r) = 3
  /\ sleepsOf (snd r) = [3 * Second; 6 * Second]%Z.
Proof. vm_compute. repeat split. Qed.

End SgwFacts.

(** ** "Not found" answers *)

Module NotFoundFacts.

(** C4 as stated fails for the teardown: when the engine answers every tag
    removal with "not found", [removeTag] still reports a failure. *)
Lemma not_found_is_reported_as_failure :
  ~ (forall (eng : Ovirt.Engine) (tag : string) (h : Ovirt.History),
        (forall h' id, exists msg,
            Ovirt.onTagRemove eng h' id = Some (Ovirt.NotFoundError msg)) ->
        fst (Ovirt.removeTag eng tag h) = None).
Proof.
  intros H.
  specialize (H Scenario.alreadyGone "abc123" []).
  cbn in H. discriminate H.
  intros h' id. now exists "404 not found".
Qed.

(** C4, as the code has it.  In the teardown a "not found" answer to a
    removal is handled like any other error: [removeVM] logs it as a failure
    and [removeTag] returns it.  In the storage-gateway service a response
    classified as "not exist" becomes the distinguished not-found error,
    built from [NotFoundMsg] and not from the error received, both in the
    plain accessor and after the retry wrapper; it is still returned as the
    error of the call. *)
Theorem not_found_handling
        (eng : Ovirt.Engine) (vm : Ovirt.Vm) (t : Ovirt.Tag)
        (rest : list Ovirt.Tag) (h : Ovirt.History) (msg : string)
        (client : Sgw.Client) (NeedRetry : Sgw.error -> bool)
        (IsExpectedErrors : Sgw.error -> list string -> bool)
        (jsonpath_Get : string -> Sgw.Obj -> Sgw.result Sgw.Obj)
        (id : string) (h2 : Sgw.History) (resp : Sgw.Obj) (err : Sgw.error)
        (fuel : nat) (gresp : Sgw.Obj) (gerr : Sgw.error)
        (captured : option Sgw.error) (count : nat) (gevs : Sgw.History) :
  Ovirt.onVmRemove eng h (Ovirt.vm_MustId vm) = Some (Ovirt.NotFoundError msg) ->
  Ovirt.onTagsList eng h = Ovirt.Ok (Some (t :: rest)) ->
  Ovirt.onTagRemove eng
    (h ++ [Ovirt.Call Ovirt.TagsList;
           Ovirt.Log Ovirt.Info ("Removing tag " ++ Ovirt.tag_MustName t)])
    (Ovirt.tag_MustId t) = Some (Ovirt.NotFoundError msg) ->
  Sgw.onNewHcsSgwClient client h2 = None ->
  Sgw.onDoRequest client (h2 ++ [Sgw.NewHcsSgwClient]) "DescribeStorageBundle"
    (<["RegionId" := Sgw.VString (Sgw.RegionId client)]>
       (<["StorageBundleId" := Sgw.VString id]> ∅)) = (resp, Some err) ->
  IsExpectedErrors err ["StorageBundleNotExist"] = true ->
  Sgw.Retry fuel (5 * Sgw.Minute)
    (Sgw.DescribeGateway_func1 client NeedRetry "DescribeGateway"
       (<["GatewayId" := Sgw.VString id]> ∅))
    (None, None, 1) (h2 ++ [Sgw.NewHcsSgwClient])
    = (Some (Some gerr, (gresp, captured, count)), gevs) ->
  IsExpectedErrors gerr ["GatewayNotExist"] = true ->
  Ovirt.removeVM eng vm h
    = (tt, [Ovirt.Call (Ovirt.VmRemove (Ovirt.vm_MustId vm));
            Ovirt.Log Ovirt.Error_
              ("Failed to remove VM " ++ Ovirt.vm_MustName vm ++ ": " ++ msg)])
  /\ Ovirt.removeTag eng (Ovirt.tag_MustName t) h
     = (Some (Ovirt.NotFoundError msg),
        [Ovirt.Call Ovirt.TagsList;
         Ovirt.Log Ovirt.Info ("Removing tag " ++ Ovirt.tag_MustName t);
         Ovirt.Call (Ovirt.TagRemove (Ovirt.tag_MustId t))])
  /\ Sgw.DescribeCloudStorageGatewayStorageBundle client IsExpectedErrors
       jsonpath_Get id h2
     = ((None,
         Some (Sgw.WrapErrorf
                 (Sgw.ErrorNotFoundMessage "CloudStorageGatewayStorageBundle" id)
                 Sgw.NotFoundMsg [Sgw.ArgSource Sgw.ProviderERROR])),
        [Sgw.NewHcsSgwClient;
         Sgw.DoRequest "DescribeStorageBundle" "POST" "2018-05-11" "AK"
           (<["RegionId" := Sgw.VString (Sgw.RegionId client)]>
              (<["StorageBundleId" := Sgw.VString id]> ∅)) true])
  /\ Sgw.DescribeGateway client NeedRetry IsExpectedErrors jsonpath_Get
       fuel id h2
     = (Some (None,
              Some (Sgw.WrapErrorf
                      (Sgw.ErrorNotFoundMessage "CloudStorageGateway:Gateway" id)
                      Sgw.NotFoundMsg
                      [Sgw.ArgSource Sgw.ProviderERROR;
                       Sgw.ArgString
                         (Sgw.Sprint (Sgw.index gresp "RequestId"))])),
        Sgw.NewHcsSgwClient :: gevs
          ++ [Sgw.addDebug "DescribeGateway" gresp
                (<["GatewayId" := Sgw.VString id]> ∅)]).
Proof.
  intros Hvm Htags Htag Hcon Hreq Hexp Hretry Hgexp.
  split; [|split; [|split]].
  - unfold Ovirt.removeVM. rewrite HistFacts.bind_run, HistFacts.emit_run.
    cbn [fst snd]. rewrite Hvm. reflexivity.
  - unfold Ovirt.removeTag. rewrite HistFacts.bind_run, HistFacts.emit_run.
    cbn [fst snd]. rewrite Htags. cbn [Hist.forRange].
    rewrite String.eqb_refl. rewrite !HistFacts.bind_run.
    rewrite OvirtFacts.logf_run, HistFacts.emit_run. cbn [fst snd].
    rewrite <- app_assoc. cbn [app]. rewrite Htag. reflexivity.
  - unfold Sgw.DescribeCloudStorageGatewayStorageBundle.
    rewrite HistFacts.bind_run, HistFacts.emit_run. cbn [fst snd].
    rewrite Hcon. cbv zeta. rewrite HistFacts.bind_run, HistFacts.emit_run.
    cbn [fst snd]. rewrite Hreq. cbn [fst snd]. rewrite Hexp. reflexivity.
  - unfold Sgw.DescribeGateway.
    rewrite HistFacts.bind_run, HistFacts.emit_run. cbn [fst snd].
    rewrite Hcon. cbv zeta. rewrite HistFacts.bind_run, Hretry.
    cbn [fst snd]. rewrite HistFacts.bind_run, HistFacts.emit_run.
    cbn [fst snd]. rewrite Hgexp. reflexivity.
Qed.

Lemma not_found_handling_witness :
  Ovirt.removeVM Scenario.alreadyGone Scenario.vm1 []
    = (tt, [Ovirt.Call (Ovirt.VmRemove "vm-1");
            Ovirt.Log Ovirt.Error_
              "Failed to remove VM abc123-master-0: 404 not found"])
  /\ Ovirt.removeTag Scenario.alreadyGone "abc123" []
     = (Some (Ovirt.NotFoundError "404 not found"),
        [Ovirt.Call Ovirt.TagsList;
         Ovirt.Log Ovirt.Info "Removing tag abc123";
         Ovirt.Call (Ovirt.TagRemove "tag-1")])
  /\ Sgw.DescribeCloudStorageGatewayStorageBundle
       SgwScenario.nothingThere
       SgwScenario.IsExpectedErrors SgwScenario.jsonpath_Get "gw-1" []
     = ((None,
         Some (Sgw.WrapErrorf
                 (Sgw.ErrorNotFoundMessage "CloudStorageGatewayStorageBundle" "gw-1")
                 Sgw.NotFoundMsg [Sgw.ArgSource Sgw.ProviderERROR])),
        [Sgw.NewHcsSgwClient;
         Sgw.DoRequest "DescribeStorageBundle" "POST" "2018-05-11" "AK"
           (<["RegionId" := Sgw.VString "cn-hangzhou"]>
              (<["StorageBundleId" := Sgw.VString "gw-1"]> ∅)) true])
  /\ Sgw.DescribeGateway
       SgwScenario.nothingThere
       SgwScenario.NeedRetry SgwScenario.IsExpectedErrors
       SgwScenario.jsonpath_Get 14 "gw-1" []
     = (Some (None,
              Some (Sgw.WrapErrorf
                      (Sgw.ErrorNotFoundMessage "CloudStorageGateway:Gateway" "gw-1")
                      Sgw.NotFoundMsg
                      [Sgw.ArgSource Sgw.ProviderERROR;
                       Sgw.ArgString "<nil>"])),
        Sgw.NewHcsSgwClient ::
          [Sgw.DoRequest "DescribeGateway" "POST" "2018-05-11" "AK"
             (<["GatewayId" := Sgw.VString "gw-1"]> ∅) true;
           Sgw.Sleep (3 * Sgw.Second);
           Sgw.DoRequest "DescribeGateway" "POST" "2018-05-11" "AK"
             (<["GatewayId" := Sgw.VString "gw-1"]> ∅) true]
          ++ [Sgw.addDebug "DescribeGateway" None
                (<["GatewayId" := Sgw.VString "gw-1"]> ∅)]).
Proof.
  apply (not_found_handling Scenario.alreadyGone Scenario.vm1
           Scenario.tagGeneral [Scenario.tagBootstrap] [] "404 not found"
           SgwScenario.nothingThere
           SgwScenario.NeedRetry SgwScenario.IsExpectedErrors
           SgwScenario.jsonpath_Get "gw-1" []
           None SgwScenario.bundleNotExist 14 None
           SgwScenario.gatewayNotExist (Some SgwScenario.gatewayNotExist) 2
           [Sgw.DoRequest "DescribeGateway" "POST" "2018-05-11" "AK"
              (<["GatewayId" := Sgw.VString "gw-1"]> ∅) true;
            Sgw.Sleep (3 * Sgw.Second);
            Sgw.DoRequest "DescribeGateway" "POST" "2018-05-11" "AK"
              (<["GatewayId" := Sgw.VString "gw-1"]> ∅) true]);
    reflexivity.
Defined.

End NotFoundFacts.

(** ** The client cache *)

Module AlibabaFacts.
Import Alibaba.

Section Client.
Variable onNewClient : History -> string -> option Client * option error.

Lemma cached_calls (c : Client) (region : string) (n : nat) (h : History) :
  calls onNewClient n {| client := Some c; Region := region |} h
  = ((repeat (Some c, None) n, {| client := Some c; Region := region |}), []).
Proof.
  revert h. induction n as [|n IH]; intros h; [reflexivity|].
  cbn [calls]. rewrite HistFacts.bind_run. cbn [Metadata_Client client].
  rewrite HistFacts.ret_run. cbn [fst snd]. rewrite HistFacts.bind_run, IH.
  reflexivity.
Qed.

Lemma Client_Region (m : Metadata) (h : History) :
  Region (snd (fst (Metadata_Client onNewClient m h))) = Region m.
Proof.
  unfold Metadata_Client. destruct (client m); [reflexivity|].
  rewrite HistFacts.bind_run, HistFacts.emit_run. cbn [fst snd].
  destruct (snd (onNewClient h (Region m))); reflexivity.
Qed.

(** C10. [Client] never changes [Region], whatever the number of calls;
    a call that returns an error leaves the receiver as it was, with no
    cached client; and once a call has returned a client, the receiver
    holds it and every later call returns it without constructing one.
    What a call returns is what the constructor answered: with an empty
    cache, a construction that fails returns its error, no client, and the
    receiver unchanged; a construction that succeeds returns the client it
    made, stores it, and every later call returns this same client without
    constructing again; with a cached client, the call returns it and
    constructs nothing. *)
Theorem Client_memoizes (m : Metadata) (h : History) :
  (forall n, Region (snd (fst (calls onNewClient n m h))) = Region m)
  /\ (forall err,
        snd (fst (fst (Metadata_Client onNewClient m h))) = Some err ->
        snd (fst (Metadata_Client onNewClient m h)) = m
        /\ client m = None
        /\ fst (fst (fst (Metadata_Client onNewClient m h))) = None)
  /\ (forall c,
        fst (fst (Metadata_Client onNewClient m h)) = (Some c, None) ->
        let m' := snd (fst (Metadata_Client onNewClient m h)) in
        client m' = Some c
        /\ forall n h',
             calls onNewClient n m' h' = ((repeat (Some c, None) n, m'), []))
  /\ (forall c err,
        client m = None ->
        onNewClient h (Region m) = (c, Some err) ->
        Metadata_Client onNewClient m h
        = ((None, Some err, m), [NewClient (Region m)]))
  /\ (forall c,
        client m = None ->
        onNewClient h (Region m) = (Some c, None) ->
        let m' := {| client := Some c; Region := Region m |} in
        Metadata_Client onNewClient m h
        = ((Some c, None, m'), [NewClient (Region m)])
        /\ forall n h',
             calls onNewClient n m' h' = ((repeat (Some c, None) n, m'), []))
  /\ (forall c,
        client m = Some c ->
        Metadata_Client onNewClient m h = ((Some c, None, m), [])).
Proof.
  split; [|split; [|split; [|split; [|split]]]].
  - intros n. revert m h. induction n as [|n IH]; intros m h; [reflexivity|].
    cbn [calls]. rewrite !HistFacts.bind_fst. cbn [fst snd Hist.ret].
    rewrite IH. apply Client_Region.
  - intros err. unfold Metadata_Client.
    destruct (client m) as [c|] eqn:Hc; [discriminate|].
    rewrite HistFacts.bind_run, HistFacts.emit_run. cbn [fst snd].
    destruct (snd (onNewClient h (Region m))) as [e|]; [|discriminate].
    intros _. repeat split.
  - intros c. unfold Metadata_Client.
    destruct m as [[c0|] region]; cbn [client Region].
    + intros [= ->]. cbn. split; [reflexivity|]. intros n h'.
      apply cached_calls.
    + rewrite HistFacts.bind_run, HistFacts.emit_run. cbn [fst snd].
      destruct (snd (onNewClient h region)) as [e|]; [discriminate|].
      cbn. intros [= ->]. split; [reflexivity|]. intros n h'.
      apply cached_calls.
  - intros c err Hc Hnew. unfold Metadata_Client. rewrite Hc.
    rewrite HistFacts.bind_run, HistFacts.emit_run. cbn [fst snd].
    rewrite Hnew. reflexivity.
  - intros c Hc Hnew. cbv zeta. split.
    + unfold Metadata_Client. rewrite Hc.
      rewrite HistFacts.bind_run, HistFacts.emit_run. cbn [fst snd].
      rewrite Hnew. reflexivity.
    + intros n h'. apply cached_calls.
  - intros c Hc. unfold Metadata_Client. rewrite Hc. reflexivity.
Qed.
End Client.

Lemma Client_memoizes_witness :
  fst (fst (Metadata_Client (AlibabaScenario.flaky 1) (NewMetadata "cn-hangzhou") []))
    = (None, Some (errorString "credentials not available"))
  /\ snd (fst (Metadata_Client (AlibabaScenario.flaky 1)
                 (NewMetadata "cn-hangzhou") []))
     = NewMetadata "cn-hangzhou"
  /\ calls (AlibabaScenario.flaky 1) 3
       {| client := Some 1; Region := "cn-hangzhou" |}
       [NewClient "cn-hangzhou"; NewClient "cn-hangzhou"]
     = ((repeat (Some 1, None) 3,
         {| client := Some 1; Region := "cn-hangzhou" |}), [])
  /\ Metadata_Client (AlibabaScenario.flaky 1) (NewMetadata "cn-hangzhou") []
     = ((None, Some (errorString "credentials not available"),
         NewMetadata "cn-hangzhou"), [NewClient "cn-hangzhou"])
  /\ Metadata_Client (AlibabaScenario.flaky 1) (NewMetadata "cn-hangzhou")
       [NewClient "cn-hangzhou"]
     = ((Some 1, None, {| client := Some 1; Region := "cn-hangzhou" |}),
        [NewClient "cn-hangzhou"])
  /\ Metadata_Client (AlibabaScenario.flaky 1)
       {| client := Some 1; Region := "cn-hangzhou" |}
       [NewClient "cn-hangzhou"; NewClient "cn-hangzhou"]
     = ((Some 1, None, {| client := Some 1; Region := "cn-hangzhou" |}), []).
Proof.
  split; [reflexivity|]. split; [|split; [|split; [|split]]].
  - apply (proj1 (proj2 (Client_memoizes (AlibabaScenario.flaky 1)
                           (NewMetadata "cn-hangzhou") []))
             (errorString "credentials not available")).
    reflexivity.
  - apply (proj1 (proj2 (proj2 (Client_memoizes (AlibabaScenario.flaky 1)
                                  (NewMetadata "cn-hangzhou")
                                  [NewClient "cn-hangzhou"])))
             1 eq_refl).
  - apply (proj1 (proj2 (proj2 (proj2
             (Client_memoizes (AlibabaScenario.flaky 1)
                (NewMetadata "cn-hangzhou") []))))
             None (errorString "credentials not available"));
      reflexivity.
  - apply (proj1 (proj2 (proj2 (proj2 (proj2
             (Client_memoizes (AlibabaScenario.flaky 1)
                (NewMetadata "cn-hangzhou") [NewClient "cn-hangzhou"])))))
             1); reflexivity.
  - apply (proj2 (proj2 (proj2 (proj2 (proj2
             (Client_memoizes (AlibabaScenario.flaky 1)
                {| client := Some 1; Region := "cn-hangzhou" |}
                [NewClient "cn-hangzhou"; NewClient "cn-hangzhou"])))))
             1).
    reflexivity.
Defined.

End AlibabaFacts.

(** ** More on the teardown steps *)

Module OvirtMore.
Import Ovirt OvirtObs.

Section Steps.
Variable eng : Engine.
Variable md : ClusterMetadata.

Local Abbreviation groupBody :=
  (fun ag : AffinityGroup =>
     if String.prefix (InfraID md ++ "-") (ag_MustName ag) then
       Hist.bind (logf Info ("Removing AffinityGroup " ++ ag_MustName ag))
         (fun _ =>
            Hist.bind
              (Hist.emit
                 (Call (AffinityGroupRemove (ClusterID (Ovirt md)) (ag_MustId ag)))
                 (fun h => onAffinityGroupRemove eng h (ClusterID (Ovirt md))
                             (ag_MustId ag)))
              (fun err =>
                 match err with
                 | Some e =>
                     logf Error_ ("failed to remove AffinityGroup: " ++ Error e)
                 | None => Hist.ret tt
                 end))
     else Hist.ret tt).

(** The loop of [removeAffinityGroups] goes through the whole list. *)
Lemma groupLoop_calls (groups : list AffinityGroup) (h : History) :
  callsOf (snd (Hist.forEach groups groupBody h))
  = groupRemovals (ClusterID (Ovirt md)) (ownGroups md groups).
Proof.
  revert h. induction groups as [|ag groups IH]; intros h; [reflexivity|].
  cbn [Hist.forEach ownGroups List.filter]. rewrite HistFacts.bind_snd.
  rewrite OvirtFacts.callsOf_app, IH.
  destruct (String.prefix (InfraID md ++ "-") (ag_MustName ag)).
  - repeat progress (hist_simpl; rewrite ?OvirtFacts.logf_run; cbn [fst snd]).
    destruct (onAffinityGroupRemove eng _ _ _); reflexivity.
  - reflexivity.
Qed.
End Steps.

Lemma callsOf_tagRemovalEvents (ts : list Tag) :
  callsOf (flat_map tagRemovalEvents ts) = tagRemovals ts.
Proof.
  induction ts as [|t ts IH]; [reflexivity|]. cbn. now rewrite IH.
Qed.

(** X1. When the tag listing answers with a list, [removeTag] asks for the
    removal of tags of exactly the given name, in the order of the list, and
    of no other tag, up to [done]: every removal but the last one made was
    answered nil, the answer to the last one is what [removeTag] returns,
    and nil is returned only when no tag of that name is left.  So it stops
    at the first removal that fails and returns its error. *)
Theorem removeTag_matching_until_failure
        (eng : Engine) (tag : string) (h : History) (tags : list Tag) :
  onTagsList eng h = Ok (Some tags) ->
  exists done rest,
    matchingTags tag tags = done ++ rest
    /\ callsOf (snd (removeTag eng tag h)) = TagsList :: tagRemovals done
    /\ (fst (removeTag eng tag h) = None -> rest = [])
    /\ (forall e, fst (removeTag eng tag h) = Some e ->
          exists evs t done',
            done = done' ++ [t]
            /\ snd (removeTag eng tag h)
               = evs ++ [Call (TagRemove (tag_MustId t))]
            /\ onTagRemove eng (h ++ evs) (tag_MustId t) = Some e)
    /\ snd (removeTag eng tag h)
       = Call TagsList :: flat_map tagRemovalEvents done
    /\ (done = [] -> fst (removeTag eng tag h) = None)
    /\ (forall pre t post,
          done = pre ++ t :: post ->
          onTagRemove eng
            (h ++ Call TagsList :: flat_map tagRemovalEvents pre
               ++ [Log Info ("Removing tag " ++ tag_MustName t)])
            (tag_MustId t)
          = match post with
            | [] => fst (removeTag eng tag h)
            | _ :: _ => None
            end).
Proof.
  intros Hlist. unfold removeTag. rewrite HistFacts.bind_run.
  cbn [Hist.emit fst snd]. rewrite Hlist.
  set (body := fun t : Tag =>
                 if String.eqb (tag_MustName t) tag then
                   Hist.bind (logf Info ("Removing tag " ++ tag_MustName t))
                     (fun _ =>
                        Hist.emit (Call (TagRemove (tag_MustId t)))
                          (fun h => onTagRemove eng h (tag_MustId t)))
                 else Hist.ret None).
  set (sel := fun t : Tag => String.eqb (tag_MustName t) tag).
  set (logs := fun t : Tag => [Log Info ("Removing tag " ++ tag_MustName t)]).
  set (req := fun t : Tag => TagRemove (tag_MustId t)).
  set (ans := fun (h' : History) (t : Tag) => onTagRemove eng h' (tag_MustId t)).
  assert (Hbody : forall x h0,
             body x h0
             = if sel x
               then (ans (h0 ++ logs x) x, logs x ++ [Call (req x)])
               else (None, [])).
  { intros x h0. unfold body, sel. destruct (String.eqb _ _); [|reflexivity].
    rewrite HistFacts.bind_run, OvirtFacts.logf_run, HistFacts.emit_run.
    reflexivity. }
  set (h0 := h ++ [Call TagsList]).
  destruct (OvirtFacts.forRange_until_failure sel logs req ans body Hbody
              tags h0) as (done & rest & Hf & Hev & Hd & Hnil & Hans).
  change (flat_map _ done) with (flat_map tagRemovalEvents done) in Hev.
  exists done, rest. split; [exact Hf|]. split; [|split; [exact Hnil|]].
  { cbn [app callsOf]. f_equal. rewrite Hev. apply callsOf_tagRemovalEvents. }
  split; [|split; [|split; [exact Hd|]]].
  - intros e He.
    destruct (OvirtFacts.forRange_failure_is_last logs req ans body tags h0
                done e Hev Hd Hans He) as (done' & t & Hlast & Hevl & Hansl).
    exists (Call TagsList :: flat_map tagRemovalEvents done'
              ++ [Log Info ("Removing tag " ++ tag_MustName t)]), t, done'.
    split; [exact Hlast|]. split.
    + cbn [app]. f_equal. exact Hevl.
    + rewrite <- Hansl. f_equal. unfold h0. now rewrite <- app_assoc.
  - cbn [app]. f_equal. exact Hev.
  - intros pre t post Hsplit.
    rewrite <- (Hans pre t post Hsplit). f_equal.
    unfold h0. now rewrite <- app_assoc.
Qed.

Lemma removeTag_matching_until_failure_witness :
  exists done rest,
    matchingTags "abc123" [Scenario.tagGeneral; Scenario.tagBootstrap]
      = done ++ rest
    /\ callsOf (snd (removeTag Scenario.engine "abc123" []))
       = TagsList :: tagRemovals done.
Proof.
  destruct (removeTag_matching_until_failure Scenario.engine "abc123" []
              [Scenario.tagGeneral; Scenario.tagBootstrap] eq_refl)
    as (done & rest & Hm & Hcalls & _).
  exists done, rest. split; [exact Hm|exact Hcalls].
Defined.

(** X2. When the listing of the affinity groups succeeds,
    [removeAffinityGroups] asks for the removal of every group whose name
    starts with the infrastructure id followed by a dash, in the order of
    the list, and of no other group; a removal that fails is logged and
    does not stop the loop, and the function returns nil. *)
Theorem removeAffinityGroups_best_effort
        (eng : Engine) (md : ClusterMetadata) (h : History)
        (groups : list AffinityGroup) :
  onAffinityGroupsList eng h (ClusterID (Ovirt md)) = Ok groups ->
  fst (removeAffinityGroups eng md h) = None
  /\ callsOf (snd (removeAffinityGroups eng md h))
     = AffinityGroupsList (ClusterID (Ovirt md))
         :: groupRemovals (ClusterID (Ovirt md)) (ownGroups md groups).
Proof.
  intros Hlist. unfold removeAffinityGroups. cbv zeta.
  rewrite HistFacts.bind_run. cbn [Hist.emit fst snd]. rewrite Hlist.
  rewrite HistFacts.bind_run, HistFacts.ret_run. cbn [fst snd].
  split; [reflexivity|].
  rewrite app_nil_r. cbn [app callsOf]. f_equal.
  apply groupLoop_calls.
Qed.

Lemma removeAffinityGroups_best_effort_witness :
  fst (removeAffinityGroups Scenario.engine Scenario.md []) = None
  /\ callsOf (snd (removeAffinityGroups Scenario.engine Scenario.md []))
     = [AffinityGroupsList "cluster-1"; AffinityGroupRemove "cluster-1" "ag-1"].
Proof.
  apply (removeAffinityGroups_best_effort Scenario.engine Scenario.md []
           [Scenario.ag1; Scenario.agOther]).
  reflexivity.
Defined.

(** *** What each step calls *)

Section Kinds.
Variable eng : Engine.
Variable md : ClusterMetadata.

Lemma forallb_callsOf_app (P : Request -> bool) (a b : list Event) :
  forallb P (callsOf (a ++ b))
  = forallb P (callsOf a) && forallb P (callsOf b).
Proof. now rewrite OvirtFacts.callsOf_app, forallb_app. Qed.

Lemma forallb_forRange {A R} (P : Request -> bool) (xs : list A)
      (body : A -> Hist.M Event (option R)) :
  (forall x h, forallb P (callsOf (snd (body x h))) = true) ->
  forall h, forallb P (callsOf (snd (Hist.forRange xs body h))) = true.
Proof.
  intros Hb. induction xs as [|x xs IH]; intros h; [reflexivity|].
  cbn [Hist.forRange]. rewrite HistFacts.bind_snd, forallb_callsOf_app, Hb.
  destruct (fst (body x h)); [reflexivity|apply IH].
Qed.

Lemma forallb_forEach {A} (P : Request -> bool) (xs : list A)
      (body : A -> Hist.M Event unit) :
  (forall x h, forallb P (callsOf (snd (body x h))) = true) ->
  forall h, forallb P (callsOf (snd (Hist.forEach xs body h))) = true.
Proof.
  intros Hb. induction xs as [|x xs IH]; intros h; [reflexivity|].
  cbn [Hist.forEach]. rewrite HistFacts.bind_snd, forallb_callsOf_app, Hb.
  apply IH.
Qed.

Lemma fanOut_vm_calls (vms : list Vm) (h : History) :
  forallb isVmCall (callsOf (snd (fanOut eng vms h))) = true.
Proof.
  destruct (OvirtFacts.fanOut_merge eng vms h) as [Hm _].
  apply forallb_forall. apply List.Forall_forall.
  apply (OvirtFacts.Interleaving_Forall (fun r => isVmCall r = true)) in Hm;
    [exact Hm|].
  apply List.Forall_forall. intros l Hl.
  apply in_map_iff in Hl as [vm [<- _]]. repeat constructor.
Qed.

Lemma removeVMs_vm_calls (tag : string) (h : History) :
  forallb isVmCall (callsOf (snd (removeVMs eng tag h))) = true.
Proof.
  unfold removeVMs. hist_simpl.
  destruct (onVmsSearch eng _ _) as [vms|e]; hist_simpl; [|reflexivity].
  rewrite ?app_nil_r, !forallb_callsOf_app, fanOut_vm_calls. reflexivity.
Qed.

Lemma removeTag_tag_calls (tag : string) (h : History) :
  forallb isTagCall (callsOf (snd (removeTag eng tag h))) = true.
Proof.
  unfold removeTag. hist_simpl.
  destruct (onTagsList eng h) as [[tags|]|e]; hist_simpl; try reflexivity.
  rewrite forallb_callsOf_app, forallb_forRange; [reflexivity|].
  intros t h'. destruct (String.eqb _ _); hist_simpl; reflexivity.
Qed.

Lemma removeTemplate_template_calls (h : History) :
  forallb isTemplateCall (callsOf (snd (removeTemplate eng md h))) = true.
Proof.
  unfold removeTemplate. destruct (RemoveTemplate (Ovirt md)); [|reflexivity].
  hist_simpl.
  destruct (onTemplatesSearch eng h _) as [[result|]|e]; hist_simpl;
    try reflexivity.
  rewrite forallb_callsOf_app, forallb_forRange; [reflexivity|].
  intros t h'. hist_simpl. reflexivity.
Qed.

Lemma removeAffinityGroups_group_calls (h : History) :
  forallb isGroupCall (callsOf (snd (removeAffinityGroups eng md h))) = true.
Proof.
  unfold removeAffinityGroups. hist_simpl.
  destruct (onAffinityGroupsList eng h _) as [groups|e]; hist_simpl;
    try reflexivity.
  rewrite app_nil_r, forallb_callsOf_app, forallb_forEach; [reflexivity|].
  intros ag h'. destruct (String.prefix _ _); hist_simpl; [|reflexivity].
  destruct (onAffinityGroupRemove eng _ _ _); reflexivity.
Qed.

Lemma logged_calls (prefix : string) (step : Hist.M Event (option error))
      (h : History) :
  callsOf (snd (logged prefix step h)) = callsOf (snd (step h)).
Proof.
  rewrite OvirtFacts.logged_run. cbn [snd]. rewrite OvirtFacts.callsOf_app.
  destruct (fst (step h)); cbn; now rewrite app_nil_r.
Qed.

(** The calls of a run that has its connection, step by step. *)
Lemma Run_calls_split (h : History) :
  onNewConnection eng h = None ->
  exists h1 h2 h3 h4 h5 h6,
    callsOf (snd (Run eng md h))
    = NewConnection
        :: callsOf (snd (removeVMs eng (InfraID md) h1))
        ++ callsOf (snd (removeTag eng (InfraID md) h2))
        ++ callsOf (snd (removeVMs eng (InfraID md ++ "-bootstrap") h3))
        ++ callsOf (snd (removeTag eng (InfraID md ++ "-bootstrap") h4))
        ++ callsOf (snd (removeTemplate eng md h5))
        ++ callsOf (snd (removeAffinityGroups eng md h6))
        ++ [Close].
Proof.
  intros Hcon. unfold Run. rewrite HistFacts.bind_snd, HistFacts.emit_run.
  cbn [fst snd]. rewrite Hcon. cbv zeta. cbn [Hist.forEach].
  repeat (rewrite ?HistFacts.bind_snd, ?HistFacts.emit_run,
            ?HistFacts.ret_run; cbn [fst snd]).
  rewrite ?app_nil_r, <- ?app_assoc.
  rewrite !OvirtFacts.callsOf_app, !logged_calls. cbn [callsOf app].
  do 6 eexists. reflexivity.
Qed.
End Kinds.



Lemma forallb_weaken {A} (P Q : A -> bool) (l : list A) :
  (forall x, P x = true -> Q x = true) ->
  forallb P l = true -> forallb Q l = true.
Proof.
  intros HPQ. induction l as [|x l IH]; [reflexivity|].
  cbn. intros H. apply andb_prop in H as [Hx Hl].
  now rewrite (HPQ x Hx), IH.
Qed.

(** X4. [Run] opens the connection first.  When that fails it does
    nothing else, not even closing; otherwise the connection is closed
    exactly once, as the last call, and every call in between is a call of
    one of the teardown steps. *)
Theorem Run_connection_bracket
        (eng : Engine) (md : ClusterMetadata) (h : History) :
  match onNewConnection eng h with
  | Some _ => snd (Run eng md h) = [Call NewConnection]
  | None =>
      exists steps,
        callsOf (snd (Run eng md h)) = NewConnection :: steps ++ [Close]
        /\ forallb isTeardownCall steps = true
  end.
Proof.
  destruct (onNewConnection eng h) as [e|] eqn:Hcon.
  - unfold Run. rewrite HistFacts.bind_snd, HistFacts.emit_run.
    cbn [fst snd]. rewrite Hcon. reflexivity.
  - destruct (Run_calls_split eng md h Hcon)
      as (h1 & h2 & h3 & h4 & h5 & h6 & Hcalls).
    eexists. split.
    + rewrite Hcalls. rewrite !app_assoc. reflexivity.
    + rewrite !forallb_app. repeat (apply andb_true_intro; split).
      all: eapply forallb_weaken;
        [|first [apply removeVMs_vm_calls | apply removeTag_tag_calls
                |apply removeTemplate_template_calls
                |apply removeAffinityGroups_group_calls]].
      all: intros r Hr; unfold isTeardownCall; rewrite Hr;
        rewrite ?orb_true_r; reflexivity.
Qed.

(** *** The units of a fan-out *)

Section Merge.
Variable eng : Engine.
Variable B : Type.
Variable proj : list Event -> list B.
Variable rem : Goroutine -> list B.
Hypothesis proj_nil : proj [] = [].
Hypothesis proj_app : forall a b, proj (a ++ b) = proj a ++ proj b.
Hypothesis rem_step : forall vm pc h,
  rem (vm, pc)
  = proj (snd (goStep eng vm pc h)) ++ rem (vm, fst (goStep eng vm pc h)).
Hypothesis rem_done : forall vm, rem (vm, PcDone) = [].

Lemma stepAt_merges (i : nat) (gs : list Goroutine) (h : History) pre post out :
  Interleaving (pre ++ map rem (fst (stepAt eng i gs h)) ++ post) out ->
  Interleaving (pre ++ map rem gs ++ post)
               (proj (snd (stepAt eng i gs h)) ++ out).
Proof.
  revert i pre h. induction gs as [|[vm pc] gs IH]; intros i pre h.
  - destruct i; cbn; rewrite proj_nil; intros H; exact H.
  - destruct i as [|j]; cbn [stepAt]; hist_simpl.
    + rewrite app_nil_r. cbn [map]. rewrite <- !app_comm_cons.
      rewrite (rem_step vm pc h). apply OvirtFacts.Interleaving_emit.
    + rewrite app_nil_r. cbn [map]. rewrite <- !app_comm_cons.
      intros H.
      specialize (IH j (pre ++ [rem (vm, pc)]) h).
      rewrite <- !app_assoc in IH. simpl in IH. now apply IH.
Qed.

Lemma runSchedule_merges (sched : list nat) (gs : list Goroutine)
      (h : History) out :
  Interleaving (map rem (fst (runSchedule eng sched gs h))) out ->
  Interleaving (map rem gs) (proj (snd (runSchedule eng sched gs h)) ++ out).
Proof.
  revert gs h. induction sched as [|i sched IH]; intros gs h.
  - cbn. rewrite proj_nil. intros H; exact H.
  - cbn [runSchedule]; hist_simpl. intros H.
    rewrite proj_app, <- app_assoc.
    pose proof (stepAt_merges i gs h [] []) as Hs.
    simpl in Hs. rewrite !app_nil_r in Hs.
    apply Hs, IH, H.
Qed.

Lemma goSteps_merges (n : nat) (vm : Vm) (pc : Pc) (h : History) pre post out :
  Interleaving (pre ++ rem (vm, fst (goSteps eng n vm pc h)) :: post) out ->
  Interleaving (pre ++ rem (vm, pc) :: post)
               (proj (snd (goSteps eng n vm pc h)) ++ out).
Proof.
  revert pc h. induction n as [|n IH]; intros pc h.
  - cbn. rewrite proj_nil. intros H; exact H.
  - cbn [goSteps]; hist_simpl. intros H.
    rewrite proj_app, <- app_assoc.
    rewrite (rem_step vm pc h). apply OvirtFacts.Interleaving_emit.
    now apply IH.
Qed.

Lemma waitAll_merges (gs : list Goroutine) (h : History) pre :
  Forall (fun l => l = []) pre ->
  Interleaving (pre ++ map rem gs) (proj (snd (waitAll eng gs h))).
Proof.
  revert h pre. induction gs as [|[vm pc] gs IH]; intros h pre Hpre.
  - cbn. rewrite app_nil_r, proj_nil. now constructor.
  - cbn [waitAll]; hist_simpl. rewrite app_nil_r, proj_app.
    cbn [map]. apply goSteps_merges.
    rewrite OvirtFacts.goSteps_done, rem_done.
    specialize (IH (h ++ snd (goSteps eng 6 vm pc h)) (pre ++ [[]])).
    rewrite <- app_assoc in IH. apply IH.
    apply Forall_app; split; [exact Hpre|]. repeat constructor.
Qed.

Lemma fanOut_merges (vms : list Vm) (h : History) :
  Interleaving (map (fun vm => rem (vm, PcStop)) vms)
               (proj (snd (fanOut eng vms h))).
Proof.
  unfold fanOut; hist_simpl. rewrite proj_app.
  rewrite <- (map_map (fun vm => (vm, PcStop)) rem).
  apply runSchedule_merges.
  apply (waitAll_merges _ _ []). constructor.
Qed.
End Merge.

Section Isolation.
Variable eng : Engine.
Hypothesis fixed : vmAnswersFixed eng.

Lemma goStep_fixed (vm : Vm) (pc : Pc) (h h' : History) :
  goStep eng vm pc h = goStep eng vm pc h'.
Proof.
  destruct fixed as (Hstop & Hwait & Hremove).
  destruct pc as [|[e|]| |[e|]| |[e|]|]; try reflexivity;
    cbn [goStep]; hist_simpl;
    rewrite ?(Hstop h h'), ?(Hwait h h'), ?(Hremove h h'); reflexivity.
Qed.

Lemma goSteps_fixed (n : nat) (vm : Vm) (pc : Pc) (h h' : History) :
  goSteps eng n vm pc h = goSteps eng n vm pc h'.
Proof.
  revert pc h h'. induction n as [|n IH]; intros pc h h'; [reflexivity|].
  cbn [goSteps]. rewrite !HistFacts.bind_run.
  rewrite (goStep_fixed vm pc h h').
  rewrite (IH _ (h ++ snd (goStep eng vm pc h'))
                (h' ++ snd (goStep eng vm pc h'))).
  reflexivity.
Qed.

Lemma remainingEvents_step (vm : Vm) (pc : Pc) (h : History) :
  remainingEvents eng (vm, pc)
  = snd (goStep eng vm pc h)
      ++ remainingEvents eng (vm, fst (goStep eng vm pc h)).
Proof.
  unfold remainingEvents. cbn [fst snd].
  rewrite OvirtFacts.goStep_stepsLeft.
  destruct (stepsLeft pc) as [|k] eqn:Hk.
  - destruct pc; try discriminate. reflexivity.
  - cbn [goSteps pred]. rewrite HistFacts.bind_snd.
    rewrite (goStep_fixed vm pc [] h). f_equal.
    f_equal. apply goSteps_fixed.
Qed.
End Isolation.

Lemma unitEvents_remaining (eng : Engine) (vm : Vm) :
  remainingEvents eng (vm, PcStop) = unitEvents eng vm.
Proof.
  unfold remainingEvents, unitEvents. cbn [fst snd stepsLeft].
  rewrite OvirtFacts.goroutine_program, !HistFacts.bind_snd.
  rewrite HistFacts.ret_run. cbn [snd]. now rewrite app_nil_r.
Qed.

(** X5. When the engine's answers about a VM do not depend on what happened
    to other resources, the events of a fan-out, calls and log lines alike,
    are a merge of what each unit emits when it runs alone: under every
    schedule each VM gets the calls and the outcome lines it would get by
    itself, and the fan-out emits the same events as the sequential run up
    to their order. *)
Theorem fanOut_units_isolated (eng : Engine) (vms : list Vm) (h : History) :
  vmAnswersFixed eng ->
  Interleaving (map (unitEvents eng) vms) (snd (fanOut eng vms h))
  /\ Permutation (snd (fanOut eng vms h)) (concat (map (unitEvents eng) vms)).
Proof.
  intros fixed.
  assert (Hm : Interleaving (map (unitEvents eng) vms) (snd (fanOut eng vms h))).
  { pose proof (fanOut_merges eng Event (fun evs => evs) (remainingEvents eng)
                  eq_refl (fun a b => eq_refl)
                  (remainingEvents_step eng fixed)
                  (fun vm => eq_refl) vms h) as H.
    rewrite (map_ext _ (unitEvents eng) (unitEvents_remaining eng)) in H.
    exact H. }
  split; [exact Hm|]. apply OvirtFacts.Interleaving_Permutation, Hm.
Qed.

Lemma fanOut_units_isolated_witness :
  Permutation
    (snd (fanOut Scenario.stubborn [Scenario.vm1; Scenario.vm2] []))
    (unitEvents Scenario.stubborn Scenario.vm1
       ++ unitEvents Scenario.stubborn Scenario.vm2 ++ []).
Proof.
  apply (fanOut_units_isolated Scenario.stubborn
           [Scenario.vm1; Scenario.vm2] []).
  repeat split; intros; reflexivity.
Defined.

End OvirtMore.

(** ** More on the storage-gateway accessors *)

Module SgwMore.
Import Sgw SgwObs.

Section Service.
Variable client : Client.
Variable NeedRetry : error -> bool.
Variable IsExpectedErrors : error -> list string -> bool.
Variable jsonpath_Get : string -> Obj -> result Obj.

Local Abbreviation func1 :=
  (DescribeCloudStorageGatewayGateway_func1 client NeedRetry).

Local Abbreviation gatewayRequest id :=
  (<["GatewayId" := VString id]> (∅ : gmap string Value)).

Local Abbreviation gatewayCall id :=
  (DoRequest "DescribeGateway" "POST" "2018-05-11" "AK" (gatewayRequest id) true).

(** The retry loop emits attempts and waits in turn, and what it returns
    is the answer to its last request. *)
Lemma RetryLoop_last (action : string) (request : gmap string Value)
      (fuel : nat) (deadline : Z) (c : Captured) (h : History) :
  let r := RetryLoop fuel deadline (func1 action request) c h in
  retryShape (snd r) = true
  /\ match fst r with
     | Some (err, (resp, _, _)) =>
         exists pre post,
           snd r = pre ++ DoRequest action "POST" "2018-05-11" "AK" request true
                     :: post
           /\ (post = [] \/ exists d, post = [Sleep d])
           /\ onDoRequest client (h ++ pre) action request = (resp, err)
     | None => True
     end.
Proof.
  revert c h. induction fuel as [|fuel IH]; intros c h r; subst r.
  - cbn. split; [reflexivity|exact I].
  - cbn [RetryLoop]. rewrite HistFacts.bind_run, SgwFacts.func1_run.
    cbv zeta.
    destruct (onDoRequest client h action request) as [resp [err|]] eqn:Hreq;
      cbn [fst snd]; [destruct (NeedRetry err)|].
    + cbn [fst snd]. rewrite HistFacts.bind_run, !SgwFacts.now_run.
      cbn [fst snd app]. rewrite !app_nil_r.
      match goal with
      | |- context [if ?b then _ else _] => destruct b
      end.
      * cbn [Hist.ret fst snd]. split; [reflexivity|].
        exists [], [Sleep (linearWait (3 * Second) (3 * Second) (snd c - 1))].
        split; [reflexivity|]. split; [right; eexists; reflexivity|].
        now rewrite app_nil_r.
      * match goal with
        | |- context [RetryLoop fuel deadline _ ?c' ?h'] =>
            destruct (IH c' h') as [Hshape Hlast];
            destruct (RetryLoop fuel deadline (func1 action request) c' h')
              as [[[err' [[resp' e'] k']]|] evs]
        end; cbn [fst snd] in *.
        -- split; [exact Hshape|].
           destruct Hlast as (pre & post & -> & Hpost & Hans).
           eexists (_ :: _ :: pre), post.
           split; [reflexivity|]. split; [exact Hpost|].
           rewrite <- Hans. f_equal. now rewrite <- app_assoc.
        -- split; [exact Hshape|exact I].
    + cbn [fst snd]. split; [reflexivity|].
      exists [], []. split; [reflexivity|]. split; [now left|].
      now rewrite app_nil_r.
    + cbn [fst snd]. split; [reflexivity|].
      exists [], []. split; [reflexivity|]. split; [now left|].
      now rewrite app_nil_r.
Qed.

(** Once the retry wrapper has returned, the function records the response
    and returns. *)
Lemma describe_after_retry (fuel : nat) (id : string) (h : History)
      (err : option error) (resp : Obj) (e : option error) (k : nat)
      (evs : History) :
  onNewHcsSgwClient client h = None ->
  Retry fuel (5 * Minute) (func1 "DescribeGateway" (gatewayRequest id))
        (None, None, 1) (h ++ [NewHcsSgwClient])
    = (Some (err, (resp, e, k)), evs) ->
  snd (DescribeCloudStorageGatewayGateway client NeedRetry IsExpectedErrors
         jsonpath_Get fuel id h)
    = NewHcsSgwClient :: evs
        ++ [addDebug "DescribeGateway" resp (gatewayRequest id)]
  /\ (forall obj,
        fst (DescribeCloudStorageGatewayGateway client NeedRetry
               IsExpectedErrors jsonpath_Get fuel id h) = Some (obj, None) ->
        err = None
        /\ Sprint (index resp "Success") <> "false"
        /\ jsonpath_Get "$" resp = Ok obj).
Proof.
  intros Hcon Hretry. unfold DescribeCloudStorageGatewayGateway.
  rewrite HistFacts.bind_run, HistFacts.emit_run. cbn [fst snd].
  rewrite Hcon. cbv zeta. rewrite HistFacts.bind_run, Hretry. cbn [fst snd].
  rewrite HistFacts.bind_run, HistFacts.emit_run. cbn [fst snd].
  destruct err as [err|].
  - destruct (IsExpectedErrors err _); cbn; (split; [reflexivity|]);
      intros obj [=].
  - destruct (String.eqb (Sprint (index resp "Success")) "false") eqn:Hs.
    + cbn. split; [reflexivity|]. intros obj [=].
    + apply String.eqb_neq in Hs.
      destruct (jsonpath_Get "$" resp) as [v|je]; cbn.
      * split; [reflexivity|]. intros obj [= <-]. auto.
      * split; [reflexivity|]. intros obj [=].
Qed.

Lemma Retry_run {S : Type} (fuel : nat) (timeout : Z)
      (f : S -> Hist.M Event (option RetryError * S)) (s : S) (h : History) :
  Retry fuel timeout f s h = RetryLoop fuel (slept h + timeout) f s h.
Proof.
  unfold Retry. rewrite HistFacts.bind_run, SgwFacts.now_run.
  cbn [fst snd app]. rewrite app_nil_r.
  now destruct (RetryLoop fuel (slept h + timeout) f s h).
Qed.

(** X6. None of the three accessors returns an object together with an
    error: whenever the error is not nil, the object is the nil map. *)
Theorem accessors_error_excludes_object
        (fuel : nat) (id : string) (h : History) :
  errorExcludesObject
    (fst (DescribeCloudStorageGatewayStorageBundle client IsExpectedErrors
            jsonpath_Get id h))
  /\ match fst (DescribeCloudStorageGatewayGateway client NeedRetry
                  IsExpectedErrors jsonpath_Get fuel id h) with
     | Some r => errorExcludesObject r
     | None => True
     end
  /\ match fst (DescribeGateway client NeedRetry IsExpectedErrors
                  jsonpath_Get fuel id h) with
     | Some r => errorExcludesObject r
     | None => True
     end.
Proof.
  assert (Hgw : match fst (DescribeCloudStorageGatewayGateway client NeedRetry
                             IsExpectedErrors jsonpath_Get fuel id h) with
                | Some r => errorExcludesObject r
                | None => True
                end).
  { unfold DescribeCloudStorageGatewayGateway.
    rewrite HistFacts.bind_run, HistFacts.emit_run. cbn [fst snd].
    destruct (onNewHcsSgwClient client h) as [e|]; [now right|].
    cbv zeta. rewrite HistFacts.bind_run.
    destruct (Retry fuel _ _ _ _) as [[[err [[resp e'] k]]|] evs];
      cbn [fst snd]; [|exact I].
    rewrite HistFacts.bind_run, HistFacts.emit_run. cbn [fst snd].
    destruct err as [err|].
    - destruct (IsExpectedErrors err _); now right.
    - destruct (String.eqb _ _); [now right|].
      destruct (jsonpath_Get _ _); [now left|now right]. }
  split; [|split; [exact Hgw|exact Hgw]].
  unfold DescribeCloudStorageGatewayStorageBundle.
  rewrite HistFacts.bind_run, HistFacts.emit_run. cbn [fst snd].
  destruct (onNewHcsSgwClient client h) as [e|]; [now right|].
  cbv zeta. rewrite HistFacts.bind_run, HistFacts.emit_run. cbn [fst snd].
  destruct (snd (onDoRequest client _ _ _)) as [err|].
  - destruct (IsExpectedErrors err _); now right.
  - rewrite HistFacts.bind_run, HistFacts.emit_run. cbn [fst snd].
    destruct (jsonpath_Get _ _); [now left|now right].
Qed.

(** X7. [DescribeCloudStorageGatewayGateway] returns an object without an
    error only for a response that the last request of the call returned
    without error and whose "Success" entry does not print as "false"; the
    object is what the path "$" selects in that response, and the response
    is the one recorded last by [addDebug]. *)
Theorem describe_success_needs_success_flag
        (fuel : nat) (id : string) (h : History) (obj : Obj) :
  fst (DescribeCloudStorageGatewayGateway client NeedRetry IsExpectedErrors
         jsonpath_Get fuel id h) = Some (obj, None) ->
  exists pre post resp,
    snd (DescribeCloudStorageGatewayGateway client NeedRetry IsExpectedErrors
           jsonpath_Get fuel id h)
      = NewHcsSgwClient :: pre ++ gatewayCall id :: post
          ++ [addDebug "DescribeGateway" resp (gatewayRequest id)]
    /\ (post = [] \/ exists d, post = [Sleep d])
    /\ onDoRequest client (h ++ NewHcsSgwClient :: pre) "DescribeGateway"
         (gatewayRequest id) = (resp, None)
    /\ Sprint (index resp "Success") <> "false"
    /\ jsonpath_Get "$" resp = Ok obj.
Proof.
  intros Hok.
  destruct (onNewHcsSgwClient client h) as [e|] eqn:Hcon.
  { revert Hok. unfold DescribeCloudStorageGatewayGateway.
    rewrite HistFacts.bind_run, HistFacts.emit_run. cbn [fst snd].
    rewrite Hcon. discriminate. }
  destruct (Retry fuel (5 * Minute) (func1 "DescribeGateway" (gatewayRequest id))
              (None, None, 1) (h ++ [NewHcsSgwClient]))
    as [[[err [[resp e'] k]]|] evs] eqn:Hretry.
  - destruct (describe_after_retry fuel id h err resp e' k evs Hcon Hretry)
      as [Hev Hres].
    destruct (Hres obj Hok) as (-> & Hflag & Hjson).
    rewrite Retry_run in Hretry.
    pose proof (RetryLoop_last "DescribeGateway" (gatewayRequest id) fuel
                  (slept (h ++ [NewHcsSgwClient]) + 5 * Minute)
                  (None, None, 1) (h ++ [NewHcsSgwClient])) as [_ Hlast].
    cbv zeta in Hlast. rewrite Hretry in Hlast. cbn [fst snd] in Hlast.
    destruct Hlast as (pre & post & -> & Hpost & Hans).
    exists pre, post, resp. split.
    + rewrite Hev. rewrite <- app_assoc. reflexivity.
    + split; [exact Hpost|]. split; [|split; assumption].
      rewrite <- Hans. f_equal. rewrite <- app_assoc. reflexivity.
  - revert Hok. unfold DescribeCloudStorageGatewayGateway.
    rewrite HistFacts.bind_run, HistFacts.emit_run. cbn [fst snd].
    rewrite Hcon. cbv zeta. rewrite HistFacts.bind_run, Hretry.
    discriminate.
Qed.

(** X8. With a client and enough fuel, the events of
    [DescribeCloudStorageGatewayGateway] are: the client, then attempts each
    followed by a wait and possibly a last attempt without one, then one
    [addDebug] record, made on success and on error alike; at least one
    request is made, and the response recorded is the answer to the last
    request. *)
Theorem describe_events_shape (fuel : nat) (id : string) (h : History) :
  14 <= fuel ->
  onNewHcsSgwClient client h = None ->
  exists pre post resp,
    snd (DescribeCloudStorageGatewayGateway client NeedRetry IsExpectedErrors
           jsonpath_Get fuel id h)
      = NewHcsSgwClient :: (pre ++ gatewayCall id :: post)
          ++ [addDebug "DescribeGateway" resp (gatewayRequest id)]
    /\ retryShape (pre ++ gatewayCall id :: post) = true
    /\ (post = [] \/ exists d, post = [Sleep d])
    /\ fst (onDoRequest client (h ++ NewHcsSgwClient :: pre) "DescribeGateway"
              (gatewayRequest id)) = resp.
Proof.
  intros Hfuel Hcon.
  pose proof (RetryLoop_last "DescribeGateway" (gatewayRequest id) fuel
                (slept (h ++ [NewHcsSgwClient]) + 5 * Minute)
                (None, None, 1) (h ++ [NewHcsSgwClient])) as [Hshape Hlast].
  destruct (SgwFacts.RetryLoop_backoff client NeedRetry "DescribeGateway"
              (gatewayRequest id) fuel
              (slept (h ++ [NewHcsSgwClient])) (h ++ [NewHcsSgwClient])
              (None, None, 1) 0) as (n & _ & _ & Hf & _);
    [reflexivity|cbn; lia|rewrite Z.sub_diag; reflexivity|].
  cbv zeta in Hshape, Hlast, Hf.
  destruct (RetryLoop fuel _ _ _ _) as [[[err [[resp e'] k]]|] evs] eqn:Hloop;
    cbn [fst snd] in *; [|exfalso; apply Hf; [lia|reflexivity]].
  destruct Hlast as (pre & post & -> & Hpost & Hans).
  destruct (describe_after_retry fuel id h err resp e' k
              (pre ++ gatewayCall id :: post) Hcon) as [Hev _].
  { rewrite Retry_run. exact Hloop. }
  exists pre, post, resp. split; [exact Hev|]. split; [exact Hshape|].
  split; [exact Hpost|].
  rewrite <- app_assoc in Hans. cbn [app] in Hans. now rewrite Hans.
Qed.

(** X9. When the client cannot be obtained, none of the three accessors
    makes a request: each returns the nil object and the wrapped error,
    having done nothing else. *)
Theorem no_request_without_client
        (fuel : nat) (id : string) (h : History) (err : error) :
  onNewHcsSgwClient client h = Some err ->
  DescribeCloudStorageGatewayStorageBundle client IsExpectedErrors
    jsonpath_Get id h = ((None, Some (WrapError err)), [NewHcsSgwClient])
  /\ DescribeCloudStorageGatewayGateway client NeedRetry IsExpectedErrors
       jsonpath_Get fuel id h
     = (Some (None, Some (WrapError err)), [NewHcsSgwClient])
  /\ DescribeGateway client NeedRetry IsExpectedErrors jsonpath_Get fuel id h
     = (Some (None, Some (WrapError err)), [NewHcsSgwClient]).
Proof.
  intros Hcon.
  unfold DescribeCloudStorageGatewayStorageBundle,
    DescribeCloudStorageGatewayGateway, DescribeGateway.
  rewrite !HistFacts.bind_run, !HistFacts.emit_run. cbn [fst snd].
  rewrite Hcon. repeat split.
Qed.

(** In the retry loop a request is followed by a wait only when it failed
    with an error classified as retryable. *)
Lemma RetryLoop_waits_after_retryable
      (action : string) (request : gmap string Value)
      (fuel : nat) (deadline : Z) (c : Captured) (h : History)
      (pre : History) (d : Z) (post : History) :
  snd (RetryLoop fuel deadline (func1 action request) c h)
    = pre ++ DoRequest action "POST" "2018-05-11" "AK" request true
        :: Sleep d :: post ->
  exists err,
    snd (onDoRequest client (h ++ pre) action request) = Some err
    /\ NeedRetry err = true.
Proof.
  revert c h pre. induction fuel as [|fuel IH]; intros c h pre.
  - cbn. intros H. destruct pre; discriminate.
  - cbn [RetryLoop]. rewrite HistFacts.bind_run, SgwFacts.func1_run.
    cbv zeta.
    destruct (snd (onDoRequest client h action request)) as [err|] eqn:Hreq;
      [destruct (NeedRetry err) eqn:Hneed|].
    + cbn [fst snd]. rewrite HistFacts.bind_run, !SgwFacts.now_run.
      cbn [fst snd app]. rewrite !app_nil_r.
      destruct pre as [|p0 [|p1 pre]]; cbn [app].
      * intros _. exists err. rewrite app_nil_r. split; assumption.
      * intros Hbad. discriminate Hbad.
      * intros [= <- <- Hrest].
        match type of Hrest with
        | context [if ?b then _ else _] => destruct b
        end.
        -- cbn in Hrest. destruct pre; discriminate.
        -- apply IH in Hrest. destruct Hrest as (err' & Hans & Hn).
           exists err'. split; [|exact Hn].
           rewrite <- Hans. do 2 f_equal. now rewrite <- app_assoc.
    + cbn [fst snd]. intros H.
      destruct pre as [|p0 pre]; [discriminate|].
      injection H as _ H. destruct pre; discriminate.
    + cbn [fst snd]. intros H.
      destruct pre as [|p0 pre]; [discriminate|].
      injection H as _ H. destruct pre; discriminate.
Qed.

(** X12. In [DescribeCloudStorageGatewayGateway] a request is followed by
    a wait, and so possibly by another request, only when it failed with an
    error that [NeedRetry] classifies as retryable: a success or any other
    error is never followed by a wait. *)
Theorem describe_waits_only_after_retryable
        (fuel : nat) (id : string) (h : History)
        (pre : History) (d : Z) (post : History) :
  snd (DescribeCloudStorageGatewayGateway client NeedRetry IsExpectedErrors
         jsonpath_Get fuel id h)
    = NewHcsSgwClient :: pre ++ gatewayCall id :: Sleep d :: post ->
  exists err,
    snd (onDoRequest client (h ++ NewHcsSgwClient :: pre) "DescribeGateway"
           (gatewayRequest id)) = Some err
    /\ NeedRetry err = true.
Proof.
  intros Hsplit.
  destruct (onNewHcsSgwClient client h) as [e|] eqn:Hcon.
  { revert Hsplit. unfold DescribeCloudStorageGatewayGateway.
    rewrite HistFacts.bind_run, HistFacts.emit_run. cbn [fst snd].
    rewrite Hcon. cbn. intros [= H]. destruct pre; discriminate. }
  destruct (SgwFacts.describe_events client NeedRetry IsExpectedErrors
              jsonpath_Get fuel id h Hcon) as (tail & Hev & Hts & Hta & _).
  cbv zeta in Hev. rewrite Hev in Hsplit. injection Hsplit as Hsplit.
  apply app_eq_app in Hsplit as [l [[Hl Hr]|[Hl Hr]]].
  - destruct l as [|x [|y l]].
    + cbn in Hr. rewrite <- Hr in Hta. discriminate Hta.
    + injection Hr as _ Hr. rewrite <- Hr in Hts. discriminate Hts.
    + injection Hr as <- <- Hr.
      apply RetryLoop_waits_after_retryable in Hl.
      destruct Hl as (err & Hans & Hn). exists err. split; [|exact Hn].
      rewrite <- Hans. do 2 f_equal. now rewrite <- app_assoc.
  - rewrite Hr, List.filter_app in Hta. cbn in Hta.
    destruct (List.filter isAttempt l); discriminate.
Qed.
End Service.

Lemma describe_waits_only_after_retryable_witness :
  exists err,
    snd (onDoRequest
           (SgwScenario.scripted
              [(None, Some SgwScenario.throttled); (SgwScenario.gateway, None)]
              (None, Some SgwScenario.forbidden))
           ([] ++ NewHcsSgwClient :: []) "DescribeGateway"
           (<["GatewayId" := VString "gw-1"]> ∅)) = Some err
    /\ SgwScenario.NeedRetry err = true.
Proof.
  apply (describe_waits_only_after_retryable
           (SgwScenario.scripted
              [(None, Some SgwScenario.throttled); (SgwScenario.gateway, None)]
              (None, Some SgwScenario.forbidden))
           SgwScenario.NeedRetry SgwScenario.IsExpectedErrors
           SgwScenario.jsonpath_Get 14 "gw-1" [] [] (3 * Second)
           [DoRequest "DescribeGateway" "POST" "2018-05-11" "AK"
              (<["GatewayId" := VString "gw-1"]> ∅) true;
            addDebug "DescribeGateway" SgwScenario.gateway
              (<["GatewayId" := VString "gw-1"]> ∅)]).
  reflexivity.
Defined.

Lemma describe_success_needs_success_flag_witness :
  exists pre post resp,
    snd (DescribeCloudStorageGatewayGateway
           (SgwScenario.scripted
              [(None, Some SgwScenario.throttled); (SgwScenario.gateway, None)]
              (None, Some SgwScenario.forbidden))
           SgwScenario.NeedRetry SgwScenario.IsExpectedErrors
           SgwScenario.jsonpath_Get 14 "gw-1" [])
      = NewHcsSgwClient
          :: pre ++ DoRequest "DescribeGateway" "POST" "2018-05-11" "AK"
                      (<["GatewayId" := VString "gw-1"]> ∅) true :: post
          ++ [addDebug "DescribeGateway" resp
                (<["GatewayId" := VString "gw-1"]> ∅)]
    /\ Sprint (index resp "Success") <> "false".
Proof.
  destruct (describe_success_needs_success_flag
              (SgwScenario.scripted
                 [(None, Some SgwScenario.throttled); (SgwScenario.gateway, None)]
                 (None, Some SgwScenario.forbidden))
              SgwScenario.NeedRetry SgwScenario.IsExpectedErrors
              SgwScenario.jsonpath_Get 14 "gw-1" [] SgwScenario.gateway
              eq_refl)
    as (pre & post & resp & Hev & _ & _ & Hflag & _).
  exists pre, post, resp. split; [exact Hev|exact Hflag].
Defined.

Lemma describe_events_shape_witness :
  exists pre post resp,
    snd (DescribeCloudStorageGatewayGateway
           (SgwScenario.scripted [] (None, Some SgwScenario.throttled))
           SgwScenario.NeedRetry SgwScenario.IsExpectedErrors
           SgwScenario.jsonpath_Get 14 "gw-1" [])
      = NewHcsSgwClient
          :: (pre ++ DoRequest "DescribeGateway" "POST" "2018-05-11" "AK"
                       (<["GatewayId" := VString "gw-1"]> ∅) true :: post)
          ++ [addDebug "DescribeGateway" resp
                (<["GatewayId" := VString "gw-1"]> ∅)]
    /\ (post = [] \/ exists d, post = [Sleep d]).
Proof.
  destruct (describe_events_shape
              (SgwScenario.scripted [] (None, Some SgwScenario.throttled))
              SgwScenario.NeedRetry SgwScenario.IsExpectedErrors
              SgwScenario.jsonpath_Get 14 "gw-1" [] (le_n 14) eq_refl)
    as (pre & post & resp & Hev & _ & Hpost & _).
  exists pre, post, resp. split; [exact Hev|exact Hpost].
Defined.

Lemma no_request_without_client_witness :
  DescribeGateway
    {| RegionId := "cn-hangzhou";
       onNewHcsSgwClient := fun _ => Some SgwScenario.forbidden;
       onDoRequest := fun _ _ _ => (None, None) |}
    SgwScenario.NeedRetry SgwScenario.IsExpectedErrors
    SgwScenario.jsonpath_Get 0 "gw-1" []
  = (Some (None, Some (WrapError SgwScenario.forbidden)), [NewHcsSgwClient]).
Proof.
  apply (no_request_without_client
           {| RegionId := "cn-hangzhou";
              onNewHcsSgwClient := fun _ => Some SgwScenario.forbidden;
              onDoRequest := fun _ _ _ => (None, None) |}
           SgwScenario.NeedRetry SgwScenario.IsExpectedErrors
           SgwScenario.jsonpath_Get 0 "gw-1" [] SgwScenario.forbidden).
  reflexivity.
Defined.

End SgwMore.

(** ** More on the client cache *)

Module AlibabaMore.
Import Alibaba AlibabaObs.

Section Client.
Variable onNewClient : History -> string -> option Client * option error.

Lemma Client_events (m : Metadata) (h : History) :
  snd (Metadata_Client onNewClient m h)
  = match client m with
    | Some _ => []
    | None => [NewClient (Region m)]
    end.
Proof.
  unfold Metadata_Client. destruct (client m); [reflexivity|].
  rewrite HistFacts.bind_run, HistFacts.emit_run. cbn [fst snd].
  destruct (snd (onNewClient h (Region m))); reflexivity.
Qed.

Lemma filled_same_start (m1 m2 m' : Metadata) :
  client m1 = client m2 -> filled m1 m' = filled m2 m'.
Proof. unfold filled. now intros ->. Qed.

(** X10. Whatever the number of calls and their outcomes, every
    construction a [Metadata] asks for is for its own region, the one given
    to [NewMetadata]. *)
Theorem calls_construct_for_own_region (n : nat) (m : Metadata) (h : History) :
  Forall (fun e => e = NewClient (Region m)) (snd (calls onNewClient n m h))
  /\ forall region,
       Forall (fun e => e = NewClient region)
              (snd (calls onNewClient n (NewMetadata region) h)).
Proof.
  assert (H : forall n m h,
             Forall (fun e => e = NewClient (Region m))
                    (snd (calls onNewClient n m h))).
  { clear. intros n. induction n as [|n IH]; intros m h; [constructor|].
    cbn [calls]. rewrite !HistFacts.bind_snd, HistFacts.ret_run.
    cbn [snd]. rewrite app_nil_r. apply Forall_app. split.
    - rewrite Client_events. destruct (client m); repeat constructor.
    - rewrite <- (AlibabaFacts.Client_Region onNewClient m h). apply IH. }
  split; [apply H|]. intros region. apply (H n (NewMetadata region) h).
Qed.

(** X11. In a sequence of calls on one receiver, a construction is asked
    for by exactly the calls that find the cache empty: their number is the
    number of calls that returned no client (an error, or a constructor
    answering nil with a nil error, which is not cached) plus one if the
    cache was filled during the sequence.  Once filled, nothing more is
    constructed. *)
Theorem calls_construction_count (n : nat) (m : Metadata) (h : History) :
  length (snd (calls onNewClient n m h))
  = withoutClient (fst (fst (calls onNewClient n m h)))
    + filled m (snd (fst (calls onNewClient n m h))).
Proof.
  revert m h. induction n as [|n IH]; intros m h.
  - cbn. unfold filled. destruct (client m); reflexivity.
  - cbn [calls]. rewrite !HistFacts.bind_snd, !HistFacts.bind_fst.
    rewrite HistFacts.ret_run. cbn [fst snd Hist.ret].
    rewrite app_nil_r, length_app, Client_events, IH.
    set (r := Metadata_Client onNewClient m h).
    set (rest := calls onNewClient n (snd (fst r)) (h ++ snd r)).
    unfold withoutClient. cbn [List.filter].
    assert (Hr : (client m <> None /\ fst (fst (fst r)) <> None
                  /\ snd (fst r) = m)
                 \/ (client m = None /\ fst (fst (fst r)) = None
                     /\ client (snd (fst r)) = None)
                 \/ (client m = None /\ fst (fst (fst r)) <> None
                     /\ client (snd (fst r)) <> None)).
    { subst r. unfold Metadata_Client.
      destruct m as [[c|] region]; cbn [client Region].
      - left. cbn. repeat split; discriminate.
      - right. rewrite HistFacts.bind_run, HistFacts.emit_run. cbn [fst snd].
        destruct (onNewClient h region) as [[c|] [e|]]; cbn;
          [left|right|left|left]; repeat split; discriminate. }
    destruct Hr as [(Hm & Hres & Heq)|[(Hm & Hres & Hnext)|(Hm & Hres & Hnext)]].
    + rewrite Heq in *. destruct (client m) eqn:Hc; [|contradiction].
      destruct (fst (fst (fst r))); [|contradiction]. reflexivity.
    + rewrite Hm, Hres. cbn [length].
      rewrite (filled_same_start m (snd (fst r))); [lia|congruence].
    + rewrite Hm. destruct (fst (fst (fst r))); [|contradiction].
      cbn [length].
      destruct (snd (fst r)) as [[c'|] region'] eqn:Hnew; [|now elim Hnext].
      subst rest. rewrite AlibabaFacts.cached_calls. cbn [fst snd].
      unfold filled. rewrite Hm. cbn. lia.
Qed.
End Client.

End AlibabaMore.
